(** * Quote proxy: cache, single-symbol and bulk lookup (yahoo_proxy.py)

    A shallow embedding of the Flask handlers of [yahoo_proxy.py].  The
    module-global [cache] dictionary, the wall clock and the upstream
    [yfinance] client are the only effects of the program; they are threaded
    through a small state-and-exception monad.  Prices are Python floats,
    modelled by Rocq's primitive binary64 floats. *)

From Stdlib Require Import ZArith String Ascii List Floats.
From stdpp Require Import gmap strings list.

Local Open Scope string_scope.
Local Open Scope Z_scope.
Set Warnings "-register-all,-clear-no-such-hyp".

(** ** JSON values handed to [jsonify] *)

Inductive json : Type :=
| JNull
| JInt (z : Z)
| JNum (f : float)
| JStr (s : string)
| JArr (items : list json)
| JObj (fields : list (string * json)).

(** A Python dict literal, read back by key. *)
Fixpoint assoc (k : string) (kv : list (string * json)) : option json :=
  match kv with
  | [] => None
  | (k', v) :: rest => if decide (k = k') then Some v else assoc k rest
  end.

Definition json_get (k : string) (j : json) : option json :=
  match j with
  | JObj kv => assoc k kv
  | _ => None
  end.

Definition json_keys (j : json) : list string :=
  match j with
  | JObj kv => kv.*1
  | _ => []
  end.

(** [j['chart']['result'][0]['meta']] *)
Definition meta_of (j : json) : option json :=
  match json_get "chart" j with
  | Some c =>
      match json_get "result" c with
      | Some (JArr (r :: _)) => json_get "meta" r
      | _ => None
      end
  | None => None
  end.

Definition meta_field (k : string) (j : json) : option json :=
  match meta_of j with
  | Some m => json_get k m
  | None => None
  end.

(** [{'error': msg}] *)
Definition error_body (msg : string) : json := JObj [("error", JStr msg)].

(** ** Python primitives used by the handlers *)

Module Py.

(** Characters removed by [str.strip()] (ASCII range): tab, newline,
    vertical tab, form feed, carriage return, the four separators
    0x1c-0x1f and the space. *)
Definition isspace (c : ascii) : bool :=
  let n := N_of_ascii c in
  ((9 <=? n) && (n <=? 13) || (28 <=? n) && (n <=? 32))%N.

Fixpoint lstrip (s : string) : string :=
  match s with
  | EmptyString => EmptyString
  | String c s' => if isspace c then lstrip s' else s
  end.

Fixpoint rstrip (s : string) : string :=
  match s with
  | EmptyString => EmptyString
  | String c s' =>
      match rstrip s' with
      | EmptyString => if isspace c then EmptyString else String c EmptyString
      | t => String c t
      end
  end.

Definition strip (s : string) : string := rstrip (lstrip s).

(** [s.split(sep)] for a one-character separator: never returns the
    empty list. *)
Fixpoint split (sep : ascii) (s : string) : list string :=
  match s with
  | EmptyString => [EmptyString]
  | String c s' =>
      if decide (c = sep) then EmptyString :: split sep s'
      else match split sep s' with
           | piece :: pieces => String c piece :: pieces
           | [] => [String c EmptyString]
           end
  end.

(** Truth value of a string: [not s] holds for the empty string only. *)
Definition str_truthy (s : string) : bool :=
  match s with EmptyString => false | _ => true end.

(** [a != b] on floats (IEEE: NaN differs from everything, -0.0 == 0.0). *)
Definition ne (a b : float) : bool := negb (PrimFloat.eqb a b).

(** Truth value of a float: false for 0.0 and -0.0 only. *)
Definition truthy (a : float) : bool := ne a 0%float.

End Py.

(** ** The upstream collaborator *)

(** The four entries of [ticker.info] the handlers read.  The outer option
    is key presence, the inner one (for [previousClose]) distinguishes a
    number from Python's [None]; a numeric entry is a float, on which
    [float(...)] is the identity. *)
Record info : Type := {
  previousClose : option (option float);
  currency      : option json;
  shortName     : option json;
  longName      : option json
}.

(** What [ticker.info] followed by [ticker.history(period="2d",
    interval="1d")] gives: an exception with its [str(e)], or the metadata
    and the [Close] column, oldest bar first. *)
Inductive fetched : Type :=
| Raises (msg : string)
| Fetched (i : info) (closes : list float).

(** ** Program state *)

(** [cache[symbol] = {'data': ..., 'timestamp': ...}]; times are
    microseconds since the epoch. *)
Record entry : Type := { data : json; timestamp : Z }.

(** The global [cache], plus three pieces of bookkeeping: how many times
    the clock has been read, which symbols were requested upstream, and
    which symbols were written to the cache (both logs newest first). *)
Record world : Type := {
  cache   : gmap string entry;
  reads   : nat;
  fetches : list string;
  stored  : list string
}.

Definition init : world :=
  {| cache := ∅; reads := 0; fetches := []; stored := [] |}.

(** [CACHE_DURATION = 60] and [timedelta(seconds=s)], the latter in
    microseconds. *)
Definition CACHE_DURATION : Z := 60.
Definition timedelta_seconds (s : Z) : Z := s * 1000000.

(** ** Results and the handler monad *)

Inductive outcome (A : Type) : Type :=
| Ok (a : A)
| Raise (msg : string).
Arguments Ok {A} a.
Arguments Raise {A} msg.

Definition M (A : Type) : Type := world -> outcome A * world.

Definition ret {A} (a : A) : M A := fun w => (Ok a, w).

Definition bind {A B} (m : M A) (k : A -> M B) : M B :=
  fun w =>
    match m w with
    | (Ok a, w') => k a w'
    | (Raise msg, w') => (Raise msg, w')
    end.

Definition raise {A} (msg : string) : M A := fun w => (Raise msg, w).

(** [try: body  except Exception as e: handler(str(e))] *)
Definition try_except {A} (body : M A) (handler : string -> M A) : M A :=
  fun w =>
    match body w with
    | (Ok a, w') => (Ok a, w')
    | (Raise msg, w') => handler msg w'
    end.

Notation "x <- m ;; k" := (bind m (fun x => k))
  (at level 100, m at next level, right associativity).

(** An HTTP response: [jsonify(body), status]. *)
Record response : Type := Response { body : json; status : Z }.

Definition jsonify (j : json) : response := Response j 200.

(** ** Primitive effects *)

Definition tick (w : world) : world :=
  {| cache := cache w; reads := S (reads w);
     fetches := fetches w; stored := stored w |}.

Definition log_fetch (symbol : string) (w : world) : world :=
  {| cache := cache w; reads := reads w;
     fetches := symbol :: fetches w; stored := stored w |}.

Definition put (symbol : string) (e : entry) (w : world) : world :=
  {| cache := <[symbol := e]> (cache w); reads := reads w;
     fetches := fetches w; stored := symbol :: stored w |}.

(** [symbol in cache] / [cache[symbol]] *)
Definition cache_lookup (symbol : string) : M (option entry) :=
  fun w => (Ok (cache w !! symbol), w).

(** [cache[symbol] = {'data': d, 'timestamp': t}] *)
Definition cache_store (symbol : string) (e : entry) : M unit :=
  fun w => (Ok tt, put symbol e w).

(** [a / b] on floats: Python raises [ZeroDivisionError] on a zero
    divisor, where IEEE arithmetic gives an infinity or a NaN. *)
Definition truediv (a b : float) : M float :=
  if PrimFloat.eqb b 0%float then raise "float division by zero"
  else ret (a / b)%float.

(** [closes.iloc[k]], negative positions counting from the end. *)
Definition iloc (closes : list float) (k : Z) : M float :=
  let n := Z.of_nat (length closes) in
  let j := if k <? 0 then n + k else k in
  if (0 <=? j) && (j <? n) then
    match closes !! Z.to_nat j with
    | Some x => ret x
    | None => raise "single positional indexer is out-of-bounds"
    end
  else raise "single positional indexer is out-of-bounds".

(** [hist.empty] *)
Definition is_empty (closes : list float) : bool :=
  match closes with [] => true | _ => false end.

(** [d.get(k, default)] on an entry of [info]. *)
Definition get_or (field : option json) (d : json) : json :=
  match field with Some v => v | None => d end.

(** [(change / previous_close) * 100 if previous_close != 0 else 0];
    the integer [0] of the else branch is divided by 100 right after,
    which gives the float 0.0 either way. *)
Definition percent_of (change previous_close : float) : M float :=
  if Py.ne previous_close 0%float then
    q <- truediv change previous_close ;; ret (q * 100)%float
  else ret 0%float.

(** ** The handlers *)

Section Handlers.

(** [clock n] is what the [n]-th call of [datetime.now()] returns, in
    microseconds since the epoch; [yf n symbol] is what the upstream client
    answers when the [n]-th request ever made is for [symbol];
    [isoformat] is [datetime.isoformat]. *)
Variable clock : nat -> Z.
Variable yf : nat -> string -> fetched.
Variable isoformat : Z -> string.

(** [datetime.now()] *)
Definition now : M Z := fun w => (Ok (clock (reads w)), tick w).

(** [ticker = yf.Ticker(symbol); info = ticker.info;
    hist = ticker.history(period="2d", interval="1d")] *)
Definition ticker (symbol : string) : M (info * list float) :=
  fun w =>
    match yf (length (fetches w)) symbol with
    | Raises msg => (Raise msg, log_fetch symbol w)
    | Fetched i closes => (Ok (i, closes), log_fetch symbol w)
    end.

Definition is_cache_valid (ts : Z) : M bool :=
  t <- now ;; ret (t - ts <? timedelta_seconds CACHE_DURATION).

(** [symbol in cache and is_cache_valid(cache[symbol]['timestamp'])];
    the clock is read only when the symbol is in the cache. *)
Definition cache_hit (symbol : string) : M (option entry) :=
  o <- cache_lookup symbol ;;
  match o with
  | None => ret None
  | Some e =>
      valid <- is_cache_valid (timestamp e) ;;
      ret (if valid then Some e else None)
  end.

(** The entry a lookup of [symbol] accepts in world [w]: present, and
    younger than [CACHE_DURATION] at the next reading of the clock. *)
Definition valid_entry (w : world) (symbol : string) : option entry :=
  match cache w !! symbol with
  | Some e =>
      if clock (reads w) - timestamp e <? timedelta_seconds CACHE_DURATION
      then Some e else None
  | None => None
  end.

(** The world once the cache has been checked for [symbol]. *)
Definition checked (w : world) (symbol : string) : world :=
  match cache w !! symbol with
  | Some _ => tick w
  | None => w
  end.

(** Lines 49-55: previous close on the single-symbol path. *)
Definition previous_close_single
    (i : info) (closes : list float) (current_price : float) : M float :=
  match previousClose i with
  | Some (Some v) => ret v
  | _ =>
      if 1 <? Z.of_nat (length closes) then iloc closes (-2)
      else ret current_price
  end.

(** Lines 62-79: the response dictionary of the single-symbol path. *)
Definition single_envelope (symbol : string) (i : info)
    (current_price previous_close change ratio : float) (t : Z) : json :=
  JObj [("chart", JObj [
    ("result", JArr [JObj [
      ("meta", JObj [
        ("currency", get_or (currency i) (JStr "INR"));
        ("symbol", JStr symbol);
        ("regularMarketPrice", JNum current_price);
        ("previousClose", JNum previous_close);
        ("regularMarketChange", JNum change);
        ("regularMarketChangePercent", JNum ratio);
        ("regularMarketTime", JInt (t `quot` 1000000));
        ("shortName", get_or (shortName i) (JStr symbol));
        ("longName", get_or (longName i) (JStr symbol))])]]);
    ("error", JNull)])].

(** Lines 33-87: the cache-miss part of [get_yahoo_data]. *)
Definition fetch_single (symbol : string) : M response :=
  r <- ticker symbol ;;
  let '(i, hist) := r in
  if is_empty hist then
    ret (Response (error_body ("No data available for symbol " +:+ symbol)) 404)
  else
    current_price <- iloc hist (-1) ;;
    previous_close <- previous_close_single i hist current_price ;;
    let change := (current_price - previous_close)%float in
    change_percent <- percent_of change previous_close ;;
    ratio <- truediv change_percent 100%float ;;
    t <- now ;;
    let response_data :=
      single_envelope symbol i current_price previous_close change ratio t in
    t' <- now ;;
    _ <- cache_store symbol {| data := response_data; timestamp := t' |} ;;
    ret (jsonify response_data).

(** [/api/yahoo-finance/<symbol>] *)
Definition get_yahoo_data (symbol : string) : M response :=
  try_except
    (hit <- cache_hit symbol ;;
     match hit with
     | Some e => ret (jsonify (data e))
     | None => fetch_single symbol
     end)
    (fun e =>
       let error_msg := "Error fetching data for " +:+ symbol +:+ ": " +:+ e in
       ret (Response (error_body error_msg) 500)).

(** Lines 122-126: previous close on the bulk path.  [None] stands for
    Python's [None], which differs from every float and is falsy. *)
Definition previous_close_bulk
    (i : info) (closes : list float) (current_price : float) : M float :=
  let previous_close : option float :=
    match previousClose i with
    | Some v => v
    | None => Some current_price
    end in
  let differs :=
    match previous_close with
    | Some v => Py.ne v current_price
    | None => true
    end in
  if differs && (1 <? Z.of_nat (length closes)) then iloc closes (-2)
  else
    match previous_close with
    | Some v => ret (if Py.truthy v then v else current_price)
    | None => ret current_price
    end.

(** Lines 131-144: the response dictionary of the bulk path. *)
Definition bulk_envelope (symbol : string) (i : info)
    (current_price previous_close change ratio : float) : json :=
  JObj [("chart", JObj [
    ("result", JArr [JObj [
      ("meta", JObj [
        ("symbol", JStr symbol);
        ("regularMarketPrice", JNum current_price);
        ("previousClose", JNum previous_close);
        ("regularMarketChange", JNum change);
        ("regularMarketChangePercent", JNum ratio);
        ("shortName", get_or (shortName i) (JStr symbol))])]])])].

(** Lines 110-154: the body of the inner [try], returning the value it
    assigns to [results[symbol]]. *)
Definition bulk_symbol (symbol : string) : M json :=
  hit <- cache_hit symbol ;;
  match hit with
  | Some e => ret (data e)
  | None =>
      r <- ticker symbol ;;
      let '(i, hist) := r in
      if negb (is_empty hist) then
        current_price <- iloc hist (-1) ;;
        previous_close <- previous_close_bulk i hist current_price ;;
        let change := (current_price - previous_close)%float in
        change_percent <- percent_of change previous_close ;;
        ratio <- truediv change_percent 100%float ;;
        let response_data :=
          bulk_envelope symbol i current_price previous_close change ratio in
        t <- now ;;
        _ <- cache_store symbol {| data := response_data; timestamp := t |} ;;
        ret response_data
      else ret (error_body ("No data for " +:+ symbol))
  end.

(** One iteration of the loop of lines 108-157. *)
Definition bulk_step (results : gmap string json) (symbol : string)
    : M (gmap string json) :=
  try_except
    (v <- bulk_symbol symbol ;; ret (<[symbol := v]> results))
    (fun e => ret (<[symbol := error_body e]> results)).

Fixpoint bulk_loop (symbols : list string) (results : gmap string json)
    : M (gmap string json) :=
  match symbols with
  | [] => ret results
  | symbol :: rest =>
      results' <- bulk_step results symbol ;; bulk_loop rest results'
  end.

(** [/api/yahoo-finance/bulk]; [arg] is the [symbols] query parameter,
    [None] when the request has none. *)
Definition get_bulk_yahoo_data (arg : option string) : M response :=
  try_except
    (let symbols_param := match arg with Some s => s | None => "" end in
     if negb (Py.str_truthy symbols_param) then
       ret (Response (error_body "No symbols provided") 400)
     else
       let symbols := map Py.strip (Py.split "," symbols_param) in
       results <- bulk_loop symbols ∅ ;;
       ret (jsonify (JObj (map_to_list results))))
    (fun e => ret (Response (error_body e) 500)).

(** [/api/nifty-data] *)
Definition get_nifty_data : M response := get_yahoo_data "^NSEI".

(** [/health] *)
Definition health_check : M response :=
  t <- now ;;
  n <- (fun w => (Ok (Z.of_nat (size (cache w))), w)) ;;
  ret (jsonify (JObj [("status", JStr "healthy");
                      ("timestamp", JStr (isoformat t));
                      ("cache_size", JInt n)])).

(** ** Requests *)

Inductive request : Type :=
| GetQuote (symbol : string)
| GetBulk (arg : option string)
| GetNifty
| GetHealth.

Definition handler (r : request) : M response :=
  match r with
  | GetQuote symbol => get_yahoo_data symbol
  | GetBulk arg => get_bulk_yahoo_data arg
  | GetNifty => get_nifty_data
  | GetHealth => health_check
  end.

(** Serving a sequence of requests, one after the other. *)
Fixpoint serve (rs : list request) (w : world) : list (outcome response) * world :=
  match rs with
  | [] => ([], w)
  | r :: rest =>
      let '(o, w') := handler r w in
      let '(os, w'') := serve rest w' in
      (o :: os, w'')
  end.

End Handlers.

(** ** Vocabulary of the specification *)

(** The closing value of the most recent price point, and of the one
    before it. *)
Definition most_recent (closes : list float) : option float :=
  reverse closes !! 0%nat.

Definition second_most_recent (closes : list float) : option float :=
  reverse closes !! 1%nat.

(** The metadata's previous close when it carries a value. *)
Definition metadata_previous_close (i : info) : option float :=
  match previousClose i with
  | Some (Some v) => Some v
  | _ => None
  end.

(** The fallback chain of the specification: the metadata value if
    present, else the second-most-recent close when there are two price
    points, else the current price. *)
Definition spec_previous_close
    (i : info) (closes : list float) (current_price : float) : float :=
  match metadata_previous_close i with
  | Some v => v
  | None =>
      match second_most_recent closes with
      | Some p => p
      | None => current_price
      end
  end.

(** The change ratio as the handlers compute it: a percentage first,
    divided by 100 on the way out. *)
Definition emitted_ratio (current_price previous_close : float) : float :=
  if PrimFloat.eqb previous_close 0%float then 0%float
  else ((current_price - previous_close) / previous_close * 100 / 100)%float.

(** A successful envelope has a [chart.result[0].meta] object; an error
    object is exactly [{'error': msg}]. *)
Definition is_envelope (j : json) : Prop := exists m, meta_of j = Some (JObj m).
Definition is_error (j : json) : Prop := exists msg, j = error_body msg.

(** Every cached response is an envelope. *)
Definition cache_ok (w : world) : Prop :=
  forall s e, cache w !! s = Some e -> is_envelope (data e).

(** What a handler may do to the cache between two worlds: nothing, or
    one write of [d] under [symbol]. *)
Definition kept (w w' : world) : Prop :=
  cache w' = cache w /\ stored w' = stored w.

Definition wrote (symbol : string) (d : json) (w w' : world) : Prop :=
  exists t, cache w' = <[symbol := {| data := d; timestamp := t |}]> (cache w)
            /\ stored w' = symbol :: stored w.

(** The cache between two worlds only gains symbols, those written in
    between. *)
Definition grows (w w' : world) : Prop :=
  exists l : list string, stored w' = (l ++ stored w)%list /\
            dom (cache w') = list_to_set l ∪ dom (cache w).

(** The keys of the nine-field and of the six-field [meta] object. *)
Definition single_meta_keys : list string :=
  ["currency"; "symbol"; "regularMarketPrice"; "previousClose";
   "regularMarketChange"; "regularMarketChangePercent";
   "regularMarketTime"; "shortName"; "longName"].

Definition bulk_meta_keys : list string :=
  ["symbol"; "regularMarketPrice"; "previousClose";
   "regularMarketChange"; "regularMarketChangePercent"; "shortName"].

(** ** A concrete upstream, for examples *)

Definition demo_clock (n : nat) : Z := 1700000000000000 + Z.of_nat n * 1000.

Definition demo_info (pc : option (option float)) : info :=
  {| previousClose := pc; currency := None;
     shortName := Some (JStr "Demo Ltd"); longName := None |}.

(** Five instruments: metadata and two bars; an upstream failure; no
    metadata and two bars; no metadata and one bar; unknown to
    everything else. *)
Definition demo_yf (n : nat) (symbol : string) : fetched :=
  if decide (symbol = "TCS.NS") then
    Fetched (demo_info (Some (Some 100%float))) [98%float; 105%float]
  else if decide (symbol = "DOWN.NS") then Raises "connection reset"
  else if decide (symbol = "INFY.NS") then
    Fetched (demo_info None) [98%float; 105%float]
  else if decide (symbol = "NEW.NS") then
    Fetched (demo_info (Some (Some 3%float))) [4%float]
  else if decide (symbol = "IPO.NS") then
    Fetched (demo_info None) [105%float]
  else Fetched (demo_info None) [].

Definition demo_isoformat (t : Z) : string := "2023-11-14T22:13:20".

(** The world after one successful single-symbol request. *)
Definition demo_cached : world :=
  (get_yahoo_data demo_clock demo_yf "TCS.NS" init).2.

(** A clock stuck exactly 60 seconds after the write of [demo_cached]. *)
Definition demo_late_clock (n : nat) : Z := 1700000060001000.

(** An upstream that knows the index only. *)
Definition demo_index_yf (n : nat) (symbol : string) : fetched :=
  if decide (symbol = "^NSEI") then
    Fetched {| previousClose := Some (Some 19500%float);
               currency := Some (JStr "INR");
               shortName := Some (JStr "NIFTY 50");
               longName := None |}
            [19400%float; 19650%float]
  else Raises "no such symbol".

(** A clock that advances by 60 seconds between two readings, and an
    upstream that answers its first two calls and times out from the
    third on. *)
Definition demo_slow_clock (n : nat) : Z :=
  1700000000000000 + Z.of_nat n * 60000000.

Definition demo_flaky_yf (n : nat) (symbol : string) : fetched :=
  if (n <? 2)%nat then Fetched (demo_info None) [98%float; 105%float]
  else Raises "upstream timed out".

(** ** Vocabulary of the further properties *)

(** What processing [symbol] once may do to the world: no cache write
    and at most one upstream call, or one upstream call followed by one
    write under [symbol]. *)
Definition effect (symbol : string) (w w' : world) : Prop :=
  (cache w' = cache w /\ stored w' = stored w /\
   (fetches w' = fetches w \/ fetches w' = symbol :: fetches w))
  \/ (exists e, cache w' = <[symbol := e]> (cache w) /\
                stored w' = symbol :: stored w /\
                fetches w' = symbol :: fetches w).

(** Every symbol written to the cache was requested upstream. *)
Definition written_were_fetched (w : world) : Prop :=
  forall s, s ∈ stored w -> s ∈ fetches w.

(** The characters of a string; a string made of whitespace and commas
    only. *)
Definition chars (s : string) : list ascii := list_ascii_of_string s.

Definition blank (s : string) : Prop :=
  forall c, c ∈ chars s -> Py.isspace c = true \/ c = ","%char.

(** * Properties *)

(** ** Effects on the cache *)

Lemma envelope_not_error v : is_envelope v -> is_error v -> False.
Proof. intros [m Hm] [msg ->]. discriminate. Qed.

Lemma kept_cache_ok w w' : kept w w' -> cache_ok w -> cache_ok w'.
Proof. intros [Hc _] Hok s e. rewrite Hc. apply Hok. Qed.

Lemma wrote_cache_ok symbol v w w' :
  wrote symbol v w w' -> is_envelope v -> cache_ok w -> cache_ok w'.
Proof.
  intros (t & Hc & _) Hv Hok s e. rewrite Hc.
  destruct (decide (symbol = s)) as [->|Hne].
  - rewrite lookup_insert_eq. intros [= <-]. exact Hv.
  - rewrite lookup_insert_ne by exact Hne. apply Hok.
Qed.

Lemma kept_frame w w' s : kept w w' -> cache w' !! s = cache w !! s.
Proof. intros [-> _]. reflexivity. Qed.

Lemma wrote_frame symbol v w w' s :
  wrote symbol v w w' -> symbol <> s -> cache w' !! s = cache w !! s.
Proof. intros (t & -> & _) Hne. apply lookup_insert_ne, Hne. Qed.

Lemma grows_refl w : grows w w.
Proof. exists []. split; [reflexivity | set_solver]. Qed.

Lemma grows_trans w1 w2 w3 : grows w1 w2 -> grows w2 w3 -> grows w1 w3.
Proof.
  intros (l1 & Hs1 & Hd1) (l2 & Hs2 & Hd2). exists (l2 ++ l1)%list. split.
  - rewrite Hs2, Hs1. apply app_assoc.
  - rewrite Hd2, Hd1, list_to_set_app_L. set_solver.
Qed.

Lemma kept_grows w w' : kept w w' -> grows w w'.
Proof. intros [Hc Hs]. exists []. rewrite Hc, Hs. split; [reflexivity | set_solver]. Qed.

Lemma wrote_grows symbol v w w' : wrote symbol v w w' -> grows w w'.
Proof.
  intros (t & Hc & Hs). exists [symbol]. rewrite Hc, Hs. split; [reflexivity|].
  rewrite dom_insert_L. set_solver.
Qed.

Lemma grows_dom w w' : grows w w' -> dom (cache w) ⊆ dom (cache w').
Proof. intros (l & _ & ->). set_solver. Qed.

Create HintDb effects.
#[local] Hint Resolve kept_cache_ok wrote_cache_ok kept_frame wrote_frame
  grows_refl kept_grows wrote_grows : effects.

(** ** Running the primitives *)

Section Runs.

Set Default Proof Using "Type".

Variable clock : nat -> Z.
Variable yf : nat -> string -> fetched.

Lemma bind_ok {A B} (m : M A) (k : A -> M B) w a w' :
  m w = (Ok a, w') -> bind m k w = k a w'.
Proof. unfold bind. intros ->. reflexivity. Qed.

Lemma cache_hit_run symbol w :
  cache_hit clock symbol w = (Ok (valid_entry clock w symbol), checked w symbol).
Proof.
  unfold cache_hit, valid_entry, checked, bind, cache_lookup, is_cache_valid.
  destruct (cache w !! symbol) as [e|]; reflexivity.
Qed.

Lemma checked_cache w symbol : cache (checked w symbol) = cache w.
Proof. unfold checked. destruct (cache w !! symbol); reflexivity. Qed.

Lemma checked_fetches w symbol : fetches (checked w symbol) = fetches w.
Proof. unfold checked. destruct (cache w !! symbol); reflexivity. Qed.

Lemma checked_stored w symbol : stored (checked w symbol) = stored w.
Proof. unfold checked. destruct (cache w !! symbol); reflexivity. Qed.

Lemma valid_entry_Some w symbol e :
  valid_entry clock w symbol = Some e ->
  cache w !! symbol = Some e /\ checked w symbol = tick w /\
  clock (reads w) - timestamp e < timedelta_seconds CACHE_DURATION.
Proof.
  unfold valid_entry, checked.
  destruct (cache w !! symbol) as [e'|]; [|discriminate].
  destruct (Z.ltb_spec (clock (reads w) - timestamp e')
              (timedelta_seconds CACHE_DURATION)); [|discriminate].
  intros [= ->]. auto.
Qed.

Lemma iloc_last closes w :
  iloc closes (-1) w =
  match most_recent closes with
  | Some x => (Ok x, w)
  | None => (Raise "single positional indexer is out-of-bounds", w)
  end.
Proof.
  unfold iloc, most_recent.
  destruct closes as [|c closes]; [reflexivity|].
  rewrite reverse_lookup by (simpl; lia).
  change (-1 <? 0) with true. cbv iota.
  replace (Z.to_nat (Z.of_nat (length (c :: closes)) + -1))
    with (length (c :: closes) - 1)%nat by lia.
  destruct (Z.leb_spec 0 (Z.of_nat (length (c :: closes)) + -1));
    [|simpl in *; lia].
  destruct (Z.ltb_spec (Z.of_nat (length (c :: closes)) + -1)
              (Z.of_nat (length (c :: closes)))); [|lia].
  cbn [andb].
  destruct ((c :: closes) !! (length (c :: closes) - 1)%nat); reflexivity.
Qed.

Lemma iloc_second closes w :
  (1 < length closes)%nat ->
  iloc closes (-2) w =
  match second_most_recent closes with
  | Some x => (Ok x, w)
  | None => (Raise "single positional indexer is out-of-bounds", w)
  end.
Proof.
  intros Hlen. unfold iloc, second_most_recent.
  rewrite reverse_lookup by lia.
  change (-2 <? 0) with true. cbv iota.
  replace (Z.to_nat (Z.of_nat (length closes) + -2))
    with (length closes - 2)%nat by lia.
  destruct (Z.leb_spec 0 (Z.of_nat (length closes) + -2)); [|lia].
  destruct (Z.ltb_spec (Z.of_nat (length closes) + -2)
              (Z.of_nat (length closes))); [|lia].
  cbn [andb].
  destruct (closes !! (length closes - 2)%nat); reflexivity.
Qed.

Lemma most_recent_is_Some closes :
  closes <> [] -> exists c, most_recent closes = Some c.
Proof.
  intros Hne. unfold most_recent.
  destruct (reverse closes !! 0%nat) as [c|] eqn:E; [eauto|].
  apply lookup_ge_None in E. rewrite length_reverse in E.
  destruct closes; [congruence | simpl in E; lia].
Qed.

Lemma second_most_recent_is_Some closes :
  (1 < length closes)%nat -> exists p, second_most_recent closes = Some p.
Proof.
  intros Hlen. unfold second_most_recent.
  destruct (reverse closes !! 1%nat) as [p|] eqn:E; [eauto|].
  apply lookup_ge_None in E. rewrite length_reverse in E. lia.
Qed.

Lemma second_most_recent_None closes :
  (length closes <= 1)%nat -> second_most_recent closes = None.
Proof.
  intros Hlen. unfold second_most_recent.
  apply lookup_ge_None. rewrite length_reverse. lia.
Qed.

Lemma truediv_100 a w : truediv a 100%float w = (Ok (a / 100)%float, w).
Proof. reflexivity. Qed.

Lemma percent_of_run change pc w :
  percent_of change pc w =
  (Ok (if PrimFloat.eqb pc 0%float then 0 else change / pc * 100)%float, w).
Proof.
  unfold percent_of, Py.ne, truediv, bind.
  destruct (PrimFloat.eqb pc 0%float); reflexivity.
Qed.

Lemma emitted_ratio_run change_percent cp pc :
  change_percent =
    (if PrimFloat.eqb pc 0%float then 0 else (cp - pc) / pc * 100)%float ->
  (change_percent / 100)%float = emitted_ratio cp pc.
Proof.
  intros ->. unfold emitted_ratio.
  destruct (PrimFloat.eqb pc 0%float); reflexivity.
Qed.

Lemma previous_close_single_run i closes cp w :
  previous_close_single i closes cp w = (Ok (spec_previous_close i closes cp), w).
Proof.
  unfold previous_close_single, spec_previous_close, metadata_previous_close.
  destruct (previousClose i) as [[v|]|]; try reflexivity.
  all: destruct (Z.ltb_spec 1 (Z.of_nat (length closes))) as [Hlen|Hlen];
    cbv iota.
  all: try ((rewrite second_most_recent_None by lia); reflexivity).
  all: (rewrite iloc_second by lia);
    destruct (second_most_recent_is_Some closes) as [p ->];
    [lia | reflexivity].
Qed.

(** The bulk path's previous close never raises and leaves the world
    alone. *)
Lemma previous_close_bulk_run i closes cp :
  exists pc, forall w, previous_close_bulk i closes cp w = (Ok pc, w).
Proof.
  unfold previous_close_bulk.
  set (pc0 := match previousClose i with Some v => v | None => Some cp end).
  destruct (Z.ltb_spec 1 (Z.of_nat (length closes))) as [Hlen|Hlen].
  - destruct (match pc0 with Some v => Py.ne v cp | None => true end).
    + cbn [andb].
      destruct (second_most_recent_is_Some closes) as [p Hp]; [lia|].
      exists p. intros w. rewrite iloc_second by lia. rewrite Hp. reflexivity.
    + cbn [andb]. destruct pc0; unfold ret; eauto.
  - rewrite andb_false_r. destruct pc0; unfold ret; eauto.
Qed.

(** *** The single-symbol handler, case by case *)

Lemma fetch_single_raises symbol w msg :
  yf (length (fetches w)) symbol = Raises msg ->
  fetch_single clock yf symbol w = (Raise msg, log_fetch symbol w).
Proof.
  intros Hyf. unfold fetch_single, bind, ticker. rewrite Hyf. reflexivity.
Qed.

Lemma fetch_single_empty symbol w i :
  yf (length (fetches w)) symbol = Fetched i [] ->
  fetch_single clock yf symbol w =
  (Ok (Response (error_body ("No data available for symbol " +:+ symbol)) 404),
   log_fetch symbol w).
Proof.
  intros Hyf. unfold fetch_single, bind, ticker. rewrite Hyf. reflexivity.
Qed.

Lemma fetch_single_quote symbol w i closes cp :
  yf (length (fetches w)) symbol = Fetched i closes ->
  most_recent closes = Some cp ->
  let pc := spec_previous_close i closes cp in
  let d := single_envelope symbol i cp pc (cp - pc)%float
             (emitted_ratio cp pc) (clock (reads w)) in
  fetch_single clock yf symbol w =
  (Ok (jsonify d),
   put symbol {| data := d; timestamp := clock (S (reads w)) |}
     (tick (tick (log_fetch symbol w)))).
Proof.
  intros Hyf Hcp pc d. unfold fetch_single.
  erewrite bind_ok by (unfold ticker; rewrite Hyf; reflexivity).
  destruct closes as [|c closes]; [discriminate|].
  cbv iota beta. change (is_empty (c :: closes)) with false. cbv iota.
  erewrite bind_ok by (rewrite iloc_last, Hcp; reflexivity).
  erewrite bind_ok by apply previous_close_single_run.
  erewrite bind_ok by apply percent_of_run.
  erewrite bind_ok by apply truediv_100.
  erewrite (emitted_ratio_run _ cp) by reflexivity.
  reflexivity.
Qed.

Lemma get_yahoo_data_hit symbol w e :
  valid_entry clock w symbol = Some e ->
  get_yahoo_data clock yf symbol w = (Ok (jsonify (data e)), tick w).
Proof.
  intros Hv. destruct (valid_entry_Some _ _ _ Hv) as (_ & Hw & _).
  unfold get_yahoo_data, try_except.
  erewrite bind_ok by apply cache_hit_run.
  rewrite Hv, Hw. reflexivity.
Qed.

Lemma get_yahoo_data_miss symbol w :
  valid_entry clock w symbol = None ->
  get_yahoo_data clock yf symbol w =
  match fetch_single clock yf symbol (checked w symbol) with
  | (Ok r, w') => (Ok r, w')
  | (Raise msg, w') =>
      (Ok (Response
             (error_body ("Error fetching data for " +:+ symbol +:+ ": " +:+ msg))
             500), w')
  end.
Proof.
  intros Hv. unfold get_yahoo_data, try_except.
  erewrite bind_ok by apply cache_hit_run.
  rewrite Hv. reflexivity.
Qed.

(** *** One bulk iteration, case by case *)

Lemma bulk_symbol_hit symbol w e :
  valid_entry clock w symbol = Some e ->
  bulk_symbol clock yf symbol w = (Ok (data e), tick w).
Proof.
  intros Hv. destruct (valid_entry_Some _ _ _ Hv) as (_ & Hw & _).
  unfold bulk_symbol.
  erewrite bind_ok by apply cache_hit_run.
  rewrite Hv, Hw. reflexivity.
Qed.

Lemma bulk_symbol_raises symbol w msg :
  valid_entry clock w symbol = None ->
  yf (length (fetches w)) symbol = Raises msg ->
  bulk_symbol clock yf symbol w = (Raise msg, log_fetch symbol (checked w symbol)).
Proof.
  intros Hv Hyf. unfold bulk_symbol.
  erewrite bind_ok by apply cache_hit_run.
  rewrite Hv. unfold bind, ticker.
  rewrite checked_fetches, Hyf. reflexivity.
Qed.

Lemma bulk_symbol_empty symbol w i :
  valid_entry clock w symbol = None ->
  yf (length (fetches w)) symbol = Fetched i [] ->
  bulk_symbol clock yf symbol w =
  (Ok (error_body ("No data for " +:+ symbol)), log_fetch symbol (checked w symbol)).
Proof.
  intros Hv Hyf. unfold bulk_symbol.
  erewrite bind_ok by apply cache_hit_run.
  rewrite Hv. unfold bind, ticker.
  rewrite checked_fetches, Hyf. reflexivity.
Qed.

Lemma bulk_symbol_quote symbol w i closes cp :
  valid_entry clock w symbol = None ->
  yf (length (fetches w)) symbol = Fetched i closes ->
  most_recent closes = Some cp ->
  exists pc,
    previous_close_bulk i closes cp w = (Ok pc, w) /\
    let d := bulk_envelope symbol i cp pc (cp - pc)%float (emitted_ratio cp pc) in
    bulk_symbol clock yf symbol w =
    (Ok d,
     put symbol {| data := d; timestamp := clock (reads (checked w symbol)) |}
       (tick (log_fetch symbol (checked w symbol)))).
Proof.
  intros Hv Hyf Hcp.
  destruct (previous_close_bulk_run i closes cp) as [pc Hpc].
  exists pc. split; [apply Hpc|]. intros d. unfold bulk_symbol.
  erewrite bind_ok by apply cache_hit_run.
  rewrite Hv.
  erewrite bind_ok
    by (unfold ticker; rewrite checked_fetches, Hyf; reflexivity).
  destruct closes as [|c closes]; [discriminate|].
  cbv iota beta. change (negb (is_empty (c :: closes))) with true. cbv iota.
  erewrite bind_ok by (rewrite iloc_last, Hcp; reflexivity).
  erewrite bind_ok by apply Hpc.
  erewrite bind_ok by apply percent_of_run.
  erewrite bind_ok by apply truediv_100.
  erewrite (emitted_ratio_run _ cp) by reflexivity.
  reflexivity.
Qed.

(** ** The single-symbol path *)

(** Every single-symbol request is answered: a cache hit, a reported
    failure that leaves the cache alone, or a fresh quote that is written
    to the cache. *)
Lemma get_yahoo_data_cases symbol w :
  exists r w',
    get_yahoo_data clock yf symbol w = (Ok r, w') /\
    ((exists e, valid_entry clock w symbol = Some e /\ r = jsonify (data e) /\
                kept w w' /\ fetches w' = fetches w)
     \/ (valid_entry clock w symbol = None /\ is_error (body r) /\
         (status r = 404 \/ status r = 500) /\ kept w w')
     \/ (valid_entry clock w symbol = None /\ status r = 200 /\
         is_envelope (body r) /\ wrote symbol (body r) w w')).
Proof.
  destruct (valid_entry clock w symbol) as [e|] eqn:Hv.
  - eexists _, _. split; [apply get_yahoo_data_hit; exact Hv|].
    left. exists e. repeat split; reflexivity.
  - rewrite get_yahoo_data_miss by exact Hv.
    destruct (yf (length (fetches w)) symbol) as [msg|i closes] eqn:Hyf.
    + rewrite (fetch_single_raises _ _ msg) by (rewrite checked_fetches; exact Hyf).
      eexists _, _. split; [reflexivity|]. right; left.
      repeat split; cbn; eauto using checked_cache, checked_stored.
      eexists; reflexivity.
    + destruct (most_recent closes) as [cp|] eqn:Hcp.
      * rewrite (fetch_single_quote _ _ i closes cp)
          by (rewrite ?checked_fetches; assumption).
        eexists _, _. split; [reflexivity|]. right; right.
        repeat split; cbn.
        -- eexists; reflexivity.
        -- unfold wrote. cbn. rewrite checked_cache, checked_stored.
           eexists. split; reflexivity.
      * assert (closes = []) as ->.
        { destruct closes as [|c closes]; [reflexivity|].
          destruct (most_recent_is_Some (c :: closes)) as [x Hx]; congruence. }
        rewrite (fetch_single_empty _ _ i) by (rewrite checked_fetches; exact Hyf).
        eexists _, _. split; [reflexivity|]. right; left.
        repeat split; cbn; eauto using checked_cache, checked_stored.
        eexists; reflexivity.
Qed.

(** C2. A single-symbol lookup of a symbol whose cache entry is younger
    than the 60-second [CACHE_DURATION] answers 200 with exactly the
    cached response, and neither calls upstream nor touches the cache. *)
Theorem cache_hit_serves_cached symbol w e :
  cache w !! symbol = Some e ->
  clock (reads w) - timestamp e < timedelta_seconds CACHE_DURATION ->
  exists w',
    get_yahoo_data clock yf symbol w = (Ok (Response (data e) 200), w') /\
    fetches w' = fetches w /\ cache w' = cache w.
Proof.
  intros Hin Hage. exists (tick w). split; [|split; reflexivity].
  apply get_yahoo_data_hit. unfold valid_entry. rewrite Hin.
  destruct (Z.ltb_spec (clock (reads w) - timestamp e)
              (timedelta_seconds CACHE_DURATION)); [reflexivity | lia].
Qed.


(** C7. On a cache miss, a fetch without price points is answered 404
    with [{error: "No data available for symbol <symbol>"}], an exception
    of the fetch is answered 500 with [{error: "Error fetching data for
    <symbol>: <detail>"}], and the handler itself never raises. *)
Theorem single_errors_are_reported symbol w :
  valid_entry clock w symbol = None ->
  (forall i, yf (length (fetches w)) symbol = Fetched i [] ->
     exists w', get_yahoo_data clock yf symbol w =
       (Ok (Response (JObj [("error", JStr ("No data available for symbol " +:+ symbol))]) 404), w'))
  /\ (forall detail, yf (length (fetches w)) symbol = Raises detail ->
     exists w', get_yahoo_data clock yf symbol w =
       (Ok (Response (JObj [("error",
              JStr ("Error fetching data for " +:+ symbol +:+ ": " +:+ detail))]) 500), w'))
  /\ (forall w0, exists r w', get_yahoo_data clock yf symbol w0 = (Ok r, w')).
Proof.
  intros Hv. repeat split.
  - intros i Hyf. rewrite get_yahoo_data_miss by exact Hv.
    rewrite (fetch_single_empty _ _ i) by (rewrite checked_fetches; exact Hyf).
    eexists; reflexivity.
  - intros detail Hyf. rewrite get_yahoo_data_miss by exact Hv.
    rewrite (fetch_single_raises _ _ detail) by (rewrite checked_fetches; exact Hyf).
    eexists; reflexivity.
  - intros w0. destruct (get_yahoo_data_cases symbol w0) as (r & w' & H & _).
    eauto.
Qed.

(** C8. A bulk request whose [symbols] parameter is missing or empty is
    answered 400 with [{"error": "No symbols provided"}]; the world, and
    with it the log of upstream calls, is unchanged. *)
Theorem bulk_rejects_missing_symbols w :
  get_bulk_yahoo_data clock yf None w =
    (Ok (Response (JObj [("error", JStr "No symbols provided")]) 400), w)
  /\ get_bulk_yahoo_data clock yf (Some "") w =
    (Ok (Response (JObj [("error", JStr "No symbols provided")]) 400), w).
Proof. split; reflexivity. Qed.

(** ** The bulk path *)

Lemma bulk_step_unfold results symbol w :
  bulk_step clock yf results symbol w =
  match bulk_symbol clock yf symbol w with
  | (Ok v, w') => (Ok (<[symbol := v]> results), w')
  | (Raise msg, w') => (Ok (<[symbol := error_body msg]> results), w')
  end.
Proof.
  unfold bulk_step, try_except, bind, ret.
  destruct (bulk_symbol clock yf symbol w) as [[v|msg] w']; reflexivity.
Qed.

(** One iteration always assigns [results[symbol]]: the cached response,
    an error object with the cache left alone, or a fresh envelope that is
    written to the cache. *)
Lemma bulk_step_cases results symbol w :
  exists v w',
    bulk_step clock yf results symbol w = (Ok (<[symbol := v]> results), w') /\
    ((exists e, valid_entry clock w symbol = Some e /\ v = data e /\
                kept w w' /\ fetches w' = fetches w)
     \/ (valid_entry clock w symbol = None /\ is_error v /\ kept w w')
     \/ (valid_entry clock w symbol = None /\ is_envelope v /\
         wrote symbol v w w')).
Proof.
  rewrite bulk_step_unfold.
  destruct (valid_entry clock w symbol) as [e|] eqn:Hv.
  - rewrite (bulk_symbol_hit _ _ e) by exact Hv.
    eexists _, _. split; [reflexivity|]. left. exists e.
    repeat split; reflexivity.
  - destruct (yf (length (fetches w)) symbol) as [msg|i closes] eqn:Hyf.
    + rewrite (bulk_symbol_raises _ _ msg) by assumption.
      eexists _, _. split; [reflexivity|]. right; left.
      repeat split; cbn; eauto using checked_cache, checked_stored.
      eexists; reflexivity.
    + destruct (most_recent closes) as [cp|] eqn:Hcp.
      * destruct (bulk_symbol_quote _ _ i closes cp Hv Hyf Hcp) as (pc & _ & ->).
        eexists _, _. split; [reflexivity|]. right; right.
        repeat split.
        -- eexists; reflexivity.
        -- unfold wrote. cbn. rewrite checked_cache, checked_stored.
           eexists. split; reflexivity.
      * assert (closes = []) as ->.
        { destruct closes as [|c closes]; [reflexivity|].
          destruct (most_recent_is_Some (c :: closes)) as [x Hx]; congruence. }
        rewrite (bulk_symbol_empty _ _ i) by assumption.
        eexists _, _. split; [reflexivity|]. right; left.
        repeat split; cbn; eauto using checked_cache, checked_stored.
        eexists; reflexivity.
Qed.

(** The loop runs to its end whatever the iterations meet. *)
Lemma bulk_loop_total symbols : forall results w,
  exists results' w', bulk_loop clock yf symbols results w = (Ok results', w').
Proof.
  induction symbols as [|symbol rest IH]; intros results w.
  - eexists _, _. reflexivity.
  - destruct (bulk_step_cases results symbol w) as (v & w1 & Hstep & _).
    destruct (IH (<[symbol := v]> results) w1) as (r' & w' & Hloop).
    exists r', w'. cbn. erewrite bind_ok by exact Hstep. exact Hloop.
Qed.


(** What the loop leaves in the mapping and in the cache. *)
Lemma bulk_loop_run symbols : forall results w results' w',
  bulk_loop clock yf symbols results w = (Ok results', w') ->
  dom results' = dom results ∪ list_to_set symbols
  /\ grows w w'
  /\ (forall s, s ∉ symbols ->
        results' !! s = results !! s /\ cache w' !! s = cache w !! s)
  /\ (cache_ok w ->
      (forall s v, results !! s = Some v -> is_envelope v \/ is_error v) ->
      cache_ok w' /\
      (forall s v, results' !! s = Some v -> is_envelope v \/ is_error v)).
Proof.
  induction symbols as [|symbol rest IH]; intros results w results' w' H.
  - cbn in H. injection H as <- <-.
    repeat split; auto using grows_refl. set_solver.
  - destruct (bulk_step_cases results symbol w) as (v & w1 & Hstep & Hcase).
    cbn in H. erewrite bind_ok in H by exact Hstep.
    destruct (IH _ _ _ _ H) as (Hdom & Hgrows & Hframe & Hshape).
    assert (grows w w1) as Hg1.
    { destruct Hcase as [(e & _ & _ & Hk & _)|[(_ & _ & Hk)|(_ & _ & Hw)]];
        eauto with effects. }
    assert (forall s, s ∉ symbol :: rest -> symbol <> s) as Hhead
      by (intros s Hs ->; apply Hs; left).
    assert (forall s, s ∉ symbol :: rest -> s ∉ rest) as Htail
      by (intros s Hs Hin; apply Hs; right; exact Hin).
    split; [|split; [|split]].
    + rewrite Hdom, dom_insert_L. set_solver.
    + eapply grows_trans; eassumption.
    + intros s Hs. destruct (Hframe s (Htail s Hs)) as [-> ->]. split.
      * apply lookup_insert_ne, Hhead, Hs.
      * destruct Hcase as [(e & _ & _ & Hk & _)|[(_ & _ & Hk)|(_ & _ & Hw)]];
          eauto with effects.
    + intros Hok Hres. apply Hshape.
      * destruct Hcase as [(e & _ & _ & Hk & _)|[(_ & _ & Hk)|(_ & Hv & Hw)]];
          eauto with effects.
      * intros s v0. destruct (decide (symbol = s)) as [->|Hne].
        -- rewrite lookup_insert_eq. intros [= <-].
           destruct Hcase as [(e & He & -> & _)|[(_ & Hv & _)|(_ & Hv & _)]]; auto.
           left. apply (Hok s). eapply valid_entry_Some. exact He.
        -- rewrite lookup_insert_ne by exact Hne. apply Hres.
Qed.

Lemma get_bulk_yahoo_data_run arg results w' w :
  arg <> "" ->
  bulk_loop clock yf (map Py.strip (Py.split "," arg)) ∅ w = (Ok results, w') ->
  get_bulk_yahoo_data clock yf (Some arg) w =
  (Ok (Response (JObj (map_to_list results)) 200), w').
Proof.
  intros Harg Hloop. unfold get_bulk_yahoo_data, try_except.
  destruct arg as [|c arg]; [congruence|]. cbn [Py.str_truthy negb].
  erewrite bind_ok by exact Hloop. reflexivity.
Qed.


(** An error entry of a duplicate-free loop marks a symbol whose cache
    entry the loop has not touched. *)
Lemma bulk_loop_errors symbols : forall results w results' w',
  NoDup symbols ->
  bulk_loop clock yf symbols results w = (Ok results', w') ->
  forall s v, s ∈ symbols -> results' !! s = Some v -> is_error v ->
  cache w' !! s = cache w !! s.
Proof.
  induction symbols as [|symbol rest IH];
    intros results w results' w' Hnd Hloop s v Hin Hres Herr.
  - inversion Hin.
  - apply NoDup_cons in Hnd as [Hfresh Hnd].
    destruct (bulk_step_cases results symbol w) as (v0 & w1 & Hstep & Hcase).
    cbn in Hloop. erewrite bind_ok in Hloop by exact Hstep.
    destruct (bulk_loop_run _ _ _ _ _ Hloop) as (_ & _ & Hframe & _).
    destruct (decide (s = symbol)) as [->|Hne].
    + destruct (Hframe symbol Hfresh) as [Hr ->].
      rewrite Hr, lookup_insert_eq in Hres. injection Hres as ->.
      destruct Hcase as [(e & _ & _ & Hk & _)|[(_ & _ & Hk)|(_ & Hv & _)]];
        eauto with effects.
      destruct (envelope_not_error _ Hv Herr).
    + apply elem_of_cons in Hin as [?|Hin]; [congruence|].
      rewrite (IH _ _ _ _ Hnd Hloop s v Hin Hres Herr).
      destruct Hcase as [(e & _ & _ & Hk & _)|[(_ & _ & Hk)|(_ & _ & Hw)]];
        eauto with effects.
Qed.

(** C10 (as the code has it). A single-symbol answer other than 200
    leaves the cache as it was, and a changed cache means a 200 answer
    whose body is what was written under the symbol; a bulk iteration
    that assigns an error object leaves the cache as it was, and one that
    changes the cache assigns the envelope it wrote; over a
    duplicate-free symbol list, a symbol bound to an error object in the
    final mapping has its cache entry unchanged by the whole request. *)
Theorem errors_leave_cache_untouched :
  (forall symbol w r w',
     get_yahoo_data clock yf symbol w = (Ok r, w') ->
     (status r <> 200 -> cache w' = cache w) /\
     (cache w' <> cache w ->
      status r = 200 /\ is_envelope (body r) /\ wrote symbol (body r) w w'))
  /\ (forall results symbol w results' w',
     bulk_step clock yf results symbol w = (Ok results', w') ->
     exists v, results' = <[symbol := v]> results /\
       (is_error v -> cache w' = cache w) /\
       (cache w' <> cache w -> is_envelope v /\ wrote symbol v w w'))
  /\ (forall symbols results w results' w',
     NoDup symbols ->
     bulk_loop clock yf symbols results w = (Ok results', w') ->
     forall s v, s ∈ symbols -> results' !! s = Some v -> is_error v ->
     cache w' !! s = cache w !! s).
Proof.
  split; [|split].
  - intros symbol w r w' Hrun.
    destruct (get_yahoo_data_cases symbol w) as (r0 & w0 & Hrun0 & Hcase).
    rewrite Hrun in Hrun0. injection Hrun0 as <- <-.
    destruct Hcase as [(e & _ & -> & [Hk _] & _)|[(_ & _ & _ & [Hk _])|(_ & Hs & He & Hw)]].
    + split; [auto | congruence].
    + split; [auto | congruence].
    + split; [congruence | auto].
  - intros results symbol w results' w' Hrun.
    destruct (bulk_step_cases results symbol w) as (v & w0 & Hrun0 & Hcase).
    rewrite Hrun in Hrun0. injection Hrun0 as -> <-.
    exists v. split; [reflexivity|].
    destruct Hcase as [(e & _ & _ & [Hk _] & _)|[(_ & _ & [Hk _])|(_ & He & Hw)]].
    + split; [auto | congruence].
    + split; [auto | congruence].
    + split; [|auto]. intros Herr. destruct (envelope_not_error _ He Herr).
  - exact bulk_loop_errors.
Qed.

(** ** The envelopes of the two paths *)

(** C3 (as the code has it). For every quote assembled on either path,
    the answer is a success and [regularMarketChangePercent] is 0 when
    [previousClose] equals 0, and otherwise the double-precision value of
    ((price - previousClose) / previousClose * 100) / 100; the division
    never faults. *)
Theorem change_ratio_is_guarded symbol w i closes cp :
  valid_entry clock w symbol = None ->
  yf (length (fetches w)) symbol = Fetched i closes ->
  most_recent closes = Some cp ->
  (exists r w' pc,
     get_yahoo_data clock yf symbol w = (Ok r, w') /\ status r = 200 /\
     meta_field "regularMarketPrice" (body r) = Some (JNum cp) /\
     meta_field "previousClose" (body r) = Some (JNum pc) /\
     meta_field "regularMarketChange" (body r) = Some (JNum (cp - pc)%float) /\
     meta_field "regularMarketChangePercent" (body r) =
       Some (JNum (if PrimFloat.eqb pc 0 then 0
                   else (cp - pc) / pc * 100 / 100)%float))
  /\ (exists d w' pc,
     bulk_symbol clock yf symbol w = (Ok d, w') /\
     meta_field "regularMarketPrice" d = Some (JNum cp) /\
     meta_field "previousClose" d = Some (JNum pc) /\
     meta_field "regularMarketChange" d = Some (JNum (cp - pc)%float) /\
     meta_field "regularMarketChangePercent" d =
       Some (JNum (if PrimFloat.eqb pc 0 then 0
                   else (cp - pc) / pc * 100 / 100)%float)).
Proof.
  intros Hv Hyf Hcp. split.
  - rewrite get_yahoo_data_miss by exact Hv.
    rewrite (fetch_single_quote _ _ i closes cp)
      by (rewrite ?checked_fetches; assumption).
    eexists _, _, _. split; [reflexivity|]. repeat split.
  - destruct (bulk_symbol_quote _ _ i closes cp Hv Hyf Hcp) as (pc & _ & ->).
    eexists _, _, pc. split; [reflexivity|]. repeat split.
Qed.

(** C6 (as the code has it). For every successful fetch, the bulk
    envelope is [{chart: {result: [{meta}]}}], the single-symbol one has
    the outer [error: null] in addition; the bulk [meta] has the six keys
    symbol, regularMarketPrice, previousClose, regularMarketChange,
    regularMarketChangePercent and shortName, the single-symbol one these
    and currency, regularMarketTime and longName; symbol,
    regularMarketPrice and shortName carry the same values, and so do the
    other three whenever the two paths agree on previousClose. *)
Theorem bulk_envelope_shape symbol w i closes cp :
  valid_entry clock w symbol = None ->
  yf (length (fetches w)) symbol = Fetched i closes ->
  most_recent closes = Some cp ->
  exists r w1 d w2 m1 m2,
    get_yahoo_data clock yf symbol w = (Ok r, w1) /\ status r = 200 /\
    bulk_symbol clock yf symbol w = (Ok d, w2) /\
    body r = JObj [("chart", JObj [("result", JArr [JObj [("meta", JObj m1)]]);
                                   ("error", JNull)])] /\
    d = JObj [("chart", JObj [("result", JArr [JObj [("meta", JObj m2)]])])] /\
    m1.*1 = single_meta_keys /\ m2.*1 = bulk_meta_keys /\
    (forall k, k ∈ ["symbol"; "regularMarketPrice"; "shortName"] ->
       assoc k m2 = assoc k m1) /\
    (assoc "previousClose" m2 = assoc "previousClose" m1 ->
     forall k, k ∈ bulk_meta_keys -> assoc k m2 = assoc k m1).
Proof.
  intros Hv Hyf Hcp.
  destruct (bulk_symbol_quote _ _ i closes cp Hv Hyf Hcp) as (pc & _ & Hbulk).
  rewrite get_yahoo_data_miss by exact Hv.
  rewrite (fetch_single_quote _ _ i closes cp)
    by (rewrite ?checked_fetches; assumption).
  rewrite Hbulk. unfold single_envelope, bulk_envelope, jsonify.
  eexists _, _, _, _, _, _.
  do 5 (split; [reflexivity|]). split; [reflexivity|]. split; [reflexivity|].
  split.
  - intros k Hk. repeat (apply elem_of_cons in Hk as [->|Hk]; [reflexivity|]).
    inversion Hk.
  - cbn. intros [= ->] k Hk.
    repeat (apply elem_of_cons in Hk as [->|Hk]; [reflexivity|]).
    inversion Hk.
Qed.

(** ** The cache over a run of the server *)

Section Server.

Variable isoformat : Z -> string.

Lemma get_bulk_yahoo_data_grows arg w :
  grows w (get_bulk_yahoo_data clock yf arg w).2.
Proof.
  destruct arg as [[|c arg]|]; try apply grows_refl.
  destruct (bulk_loop_total (map Py.strip (Py.split "," (String c arg))) ∅ w)
    as (results & w' & Hloop).
  rewrite (get_bulk_yahoo_data_run _ results w') by (exact Hloop || discriminate).
  destruct (bulk_loop_run _ _ _ _ _ Hloop) as (_ & Hgrows & _). exact Hgrows.
Qed.

Lemma get_yahoo_data_grows symbol w :
  grows w (get_yahoo_data clock yf symbol w).2.
Proof.
  destruct (get_yahoo_data_cases symbol w) as (r & w' & -> & Hcase).
  destruct Hcase as [(e & _ & _ & Hk & _)|[(_ & _ & _ & Hk)|(_ & _ & _ & Hw)]];
    eauto with effects.
Qed.

Lemma handler_grows r w : grows w (handler clock yf isoformat r w).2.
Proof.
  destruct r as [symbol|arg| |]; cbn [handler].
  - apply get_yahoo_data_grows.
  - apply get_bulk_yahoo_data_grows.
  - apply get_yahoo_data_grows.
  - apply kept_grows. split; reflexivity.
Qed.

Lemma serve_step r rest w :
  serve clock yf isoformat (r :: rest) w =
  ((handler clock yf isoformat r w).1
     :: (serve clock yf isoformat rest (handler clock yf isoformat r w).2).1,
   (serve clock yf isoformat rest (handler clock yf isoformat r w).2).2).
Proof.
  cbn [serve]. destruct (handler clock yf isoformat r w) as [o w'].
  cbn [fst snd]. destruct (serve clock yf isoformat rest w'). reflexivity.
Qed.

Lemma serve_grows rs : forall w, grows w (serve clock yf isoformat rs w).2.
Proof.
  induction rs as [|r rest IH]; intros w.
  - apply grows_refl.
  - rewrite serve_step. cbn [snd].
    eapply grows_trans; [apply handler_grows | apply IH].
Qed.

(** Every response the server caches is an envelope. *)
Lemma get_yahoo_data_cache_ok symbol w :
  cache_ok w -> cache_ok (get_yahoo_data clock yf symbol w).2.
Proof.
  intros Hok.
  destruct (get_yahoo_data_cases symbol w) as (r & w' & -> & Hcase).
  destruct Hcase as [(e & _ & _ & Hk & _)|[(_ & _ & _ & Hk)|(_ & _ & He & Hw)]];
    cbn [snd]; eauto with effects.
Qed.

Lemma handler_cache_ok r w :
  cache_ok w -> cache_ok (handler clock yf isoformat r w).2.
Proof.
  intros Hok. destruct r as [symbol|arg| |]; cbn [handler].
  - apply get_yahoo_data_cache_ok, Hok.
  - destruct arg as [[|c arg]|]; try exact Hok.
    destruct (bulk_loop_total (map Py.strip (Py.split "," (String c arg))) ∅ w)
      as (results & w' & Hloop).
    rewrite (get_bulk_yahoo_data_run _ results w') by (exact Hloop || discriminate).
    destruct (bulk_loop_run _ _ _ _ _ Hloop) as (_ & _ & _ & Hshape).
    apply Hshape; [exact Hok|]. intros s v. rewrite lookup_empty. discriminate.
  - apply get_yahoo_data_cache_ok, Hok.
  - exact Hok.
Qed.

Lemma serve_cache_ok rs : forall w,
  cache_ok w -> cache_ok (serve clock yf isoformat rs w).2.
Proof.
  induction rs as [|r rest IH]; intros w Hok; [exact Hok|].
  rewrite serve_step. cbn [snd]. apply IH, handler_cache_ok, Hok.
Qed.

(** C9. In every world the cache binds a symbol at most once and no
    request removes a binding, so no request makes the cache smaller;
    after any sequence of requests served from the empty cache,
    [/health] reports as [cache_size] the number of distinct symbols
    that were written to the cache. *)
Theorem cache_size_counts_cached_symbols :
  (forall w, NoDup (map_to_list (cache w)).*1)
  /\ (forall w r,
        dom (cache w) ⊆ dom (cache (handler clock yf isoformat r w).2) /\
        (size (cache w) <= size (cache (handler clock yf isoformat r w).2))%nat)
  /\ (forall rs,
        let w := (serve clock yf isoformat rs init).2 in
        health_check clock isoformat w =
        (Ok (Response
               (JObj [("status", JStr "healthy");
                      ("timestamp", JStr (isoformat (clock (reads w))));
                      ("cache_size",
                       JInt (Z.of_nat (size (list_to_set (stored w) : gset string))))])
               200),
         tick w)).
Proof.
  split; [|split].
  - intros w. apply NoDup_fst_map_to_list.
  - intros w r. pose proof (grows_dom _ _ (handler_grows r w)) as Hsub.
    split; [exact Hsub|].
    rewrite <- !(size_dom (D := gset string)). apply subseteq_size, Hsub.
  - intros rs w. destruct (serve_grows rs init) as (l & Hs & Hd).
    fold w in Hs, Hd. cbn in Hs, Hd.
    rewrite app_nil_r in Hs. rewrite dom_empty_L, (right_id_L ∅ (∪)) in Hd.
    rewrite Hs, <- Hd, size_dom. reflexivity.
Qed.

End Server.

End Runs.

(** ** The two paths on the demo upstream *)


(** The specification's example: of two symbols, the first is quoted and
    the fetch of the second raises; both are in the mapping. *)
Example bulk_isolates_failure :
  exists results w',
    bulk_loop demo_clock demo_yf ["TCS.NS"; "DOWN.NS"] ∅ init = (Ok results, w') /\
    (exists v, results !! "TCS.NS" = Some v /\
               meta_field "symbol" v = Some (JStr "TCS.NS")) /\
    results !! "DOWN.NS" = Some (error_body "connection reset") /\
    get_bulk_yahoo_data demo_clock demo_yf (Some "TCS.NS, DOWN.NS") init =
      (Ok (Response (JObj (map_to_list results)) 200), w').
Proof.
  eexists _, _. split; [vm_compute; reflexivity|].
  split; [eexists; split; vm_compute; reflexivity|].
  split; vm_compute; reflexivity.
Qed.

(** Three requests that cache two symbols between them, one that fails,
    then [/health]. *)
Example health_counts_two :
  (serve demo_clock demo_yf demo_isoformat
     [GetQuote "TCS.NS"; GetBulk (Some "TCS.NS,INFY.NS"); GetQuote "DOWN.NS";
      GetHealth] init).1 !! 3%nat =
  Some (Ok (Response (JObj [("status", JStr "healthy");
                            ("timestamp", JStr "2023-11-14T22:13:20");
                            ("cache_size", JInt 2)]) 200)).
Proof. vm_compute. reflexivity. Qed.

(** C1. With metadata that reports a previous close of 100 and bars
    closing at 98 and 105, the single-symbol path reports 100, as the
    fallback chain of the specification does, and the bulk path 98; with
    no previous close in the metadata and the same bars, the
    single-symbol path and the chain give 98 and the bulk path 105. *)
Theorem bulk_previous_close_diverges :
  (exists r w1 d w2,
     get_yahoo_data demo_clock demo_yf "TCS.NS" init = (Ok r, w1) /\
     bulk_symbol demo_clock demo_yf "TCS.NS" init = (Ok d, w2) /\
     spec_previous_close (demo_info (Some (Some 100%float)))
       [98%float; 105%float] 105%float = 100%float /\
     meta_field "previousClose" (body r) = Some (JNum 100%float) /\
     meta_field "previousClose" d = Some (JNum 98%float) /\
     meta_field "regularMarketChange" (body r) = Some (JNum 5%float) /\
     meta_field "regularMarketChange" d = Some (JNum 7%float))
  /\ (exists r w1 d w2,
     get_yahoo_data demo_clock demo_yf "INFY.NS" init = (Ok r, w1) /\
     bulk_symbol demo_clock demo_yf "INFY.NS" init = (Ok d, w2) /\
     spec_previous_close (demo_info None)
       [98%float; 105%float] 105%float = 98%float /\
     meta_field "previousClose" (body r) = Some (JNum 98%float) /\
     meta_field "previousClose" d = Some (JNum 105%float) /\
     meta_field "regularMarketChange" (body r) = Some (JNum 7%float) /\
     meta_field "regularMarketChange" d = Some (JNum 0%float)).
Proof.
  split; eexists _, _, _, _;
    (split; [vm_compute; reflexivity|]);
    (split; [vm_compute; reflexivity|]);
    repeat split; vm_compute; reflexivity.
Qed.

(** C3, counterexample. A price of 4 against a previous close of 3 is
    reported with a change ratio that is not the double (4 - 3) / 3. *)
Lemma change_ratio_not_the_quotient :
  exists r w',
    get_yahoo_data demo_clock demo_yf "NEW.NS" init = (Ok r, w') /\
    meta_field "regularMarketPrice" (body r) = Some (JNum 4%float) /\
    meta_field "previousClose" (body r) = Some (JNum 3%float) /\
    meta_field "regularMarketChangePercent" (body r)
      <> Some (JNum ((4 - 3) / 3)%float).
Proof.
  eexists _, _. split; [vm_compute; reflexivity|].
  split; [vm_compute; reflexivity|]. split; [vm_compute; reflexivity|].
  intros H.
  apply (f_equal (fun o => match o with
                           | Some (JNum x) => PrimFloat.eqb x ((4 - 3) / 3)%float
                           | _ => true
                           end)) in H.
  vm_compute in H. discriminate.
Qed.

(** C10, counterexample. A bulk request that lists a symbol twice, with
    the entry written by the first occurrence already 60 seconds old when
    the second is checked and the second fetch failing, ends with the
    symbol bound to an error object although the request has written a
    cache entry for it. *)
Lemma repeated_symbol_error_after_write :
  exists results w',
    get_bulk_yahoo_data demo_slow_clock demo_flaky_yf
      (Some "TCS.NS,INFY.NS,TCS.NS") init =
      (Ok (Response (JObj (map_to_list results)) 200), w') /\
    results !! "TCS.NS" = Some (JObj [("error", JStr "upstream timed out")]) /\
    is_error (JObj [("error", JStr "upstream timed out")]) /\
    cache init !! "TCS.NS" = None /\
    (exists e, cache w' !! "TCS.NS" = Some e /\ is_envelope (data e)) /\
    cache w' !! "TCS.NS" <> cache init !! "TCS.NS".
Proof.
  eexists _, _. split.
  { apply get_bulk_yahoo_data_run; [discriminate|]. vm_compute. reflexivity. }
  split; [vm_compute; reflexivity|].
  split; [eexists; reflexivity|].
  split; [reflexivity|].
  split; [eexists; split; [vm_compute; reflexivity | eexists; vm_compute; reflexivity]|].
  vm_compute. discriminate.
Qed.

(** C6, counterexample. For an instrument with one bar and no metadata,
    on which the two paths agree on every value they both report, the
    bulk envelope has no currency, no regularMarketTime and no longName,
    which the single-symbol envelope has. *)
Lemma bulk_meta_lacks_keys :
  exists r w1 d w2 m1 m2,
    get_yahoo_data demo_clock demo_yf "IPO.NS" init = (Ok r, w1) /\
    bulk_symbol demo_clock demo_yf "IPO.NS" init = (Ok d, w2) /\
    meta_of (body r) = Some m1 /\ meta_of d = Some m2 /\
    json_keys m1 <> json_keys m2 /\
    json_get "currency" m1 = Some (JStr "INR") /\
    json_get "currency" m2 = None /\
    json_get "regularMarketTime" m1 = Some (JInt 1700000000) /\
    json_get "regularMarketTime" m2 = None /\
    json_get "longName" m1 = Some (JStr "IPO.NS") /\
    json_get "longName" m2 = None /\
    json_get "previousClose" m1 = json_get "previousClose" m2.
Proof.
  eexists _, _, _, _, _, _.
  do 4 (split; [vm_compute; reflexivity|]).
  split; [vm_compute; discriminate|].
  repeat split; vm_compute; reflexivity.
Qed.

(** ** The theorems at work on the demo upstream *)

Lemma cache_hit_serves_cached_witness :
  exists e,
    cache demo_cached !! "TCS.NS" = Some e /\
    demo_clock (reads demo_cached) - timestamp e < timedelta_seconds CACHE_DURATION /\
    exists w',
      get_yahoo_data demo_clock demo_yf "TCS.NS" demo_cached =
        (Ok (Response (data e) 200), w') /\
      fetches w' = fetches demo_cached /\ cache w' = cache demo_cached.
Proof.
  eexists. split; [vm_compute; reflexivity|]. split; [vm_compute; reflexivity|].
  apply (cache_hit_serves_cached demo_clock demo_yf "TCS.NS" demo_cached);
    vm_compute; reflexivity.
Defined.


Lemma single_errors_are_reported_witness :
  valid_entry demo_clock init "DOWN.NS" = None /\
  demo_yf (length (fetches init)) "DOWN.NS" = Raises "connection reset" /\
  exists w',
    get_yahoo_data demo_clock demo_yf "DOWN.NS" init =
    (Ok (Response
           (JObj [("error",
                   JStr "Error fetching data for DOWN.NS: connection reset")])
           500), w').
Proof.
  split; [reflexivity|]. split; [reflexivity|].
  destruct (single_errors_are_reported demo_clock demo_yf "DOWN.NS" init eq_refl)
    as (_ & Hraise & _).
  apply (Hraise "connection reset"). reflexivity.
Defined.

Lemma change_ratio_is_guarded_witness :
  valid_entry demo_clock init "NEW.NS" = None /\
  demo_yf (length (fetches init)) "NEW.NS"
    = Fetched (demo_info (Some (Some 3%float))) [4%float] /\
  most_recent [4%float] = Some 4%float /\
  exists d w' pc,
    bulk_symbol demo_clock demo_yf "NEW.NS" init = (Ok d, w') /\
    meta_field "regularMarketChangePercent" d =
      Some (JNum (if PrimFloat.eqb pc 0 then 0
                  else (4 - pc) / pc * 100 / 100)%float).
Proof.
  split; [reflexivity|]. split; [reflexivity|]. split; [reflexivity|].
  destruct (change_ratio_is_guarded demo_clock demo_yf "NEW.NS" init
              (demo_info (Some (Some 3%float))) [4%float] 4%float
              eq_refl eq_refl eq_refl)
    as (_ & d & w' & pc & Hrun & _ & _ & _ & Hratio).
  exists d, w', pc. split; [exact Hrun | exact Hratio].
Defined.

Lemma bulk_envelope_shape_witness :
  valid_entry demo_clock init "IPO.NS" = None /\
  demo_yf (length (fetches init)) "IPO.NS"
    = Fetched (demo_info None) [105%float] /\
  most_recent [105%float] = Some 105%float /\
  exists d w2 m2,
    bulk_symbol demo_clock demo_yf "IPO.NS" init = (Ok d, w2) /\
    d = JObj [("chart", JObj [("result", JArr [JObj [("meta", JObj m2)]])])] /\
    m2.*1 = bulk_meta_keys.
Proof.
  split; [reflexivity|]. split; [reflexivity|]. split; [reflexivity|].
  destruct (bulk_envelope_shape demo_clock demo_yf "IPO.NS" init
              (demo_info None) [105%float] 105%float
              eq_refl eq_refl eq_refl)
    as (r & w1 & d & w2 & m1 & m2 & _ & _ & Hrun & _ & Hd & _ & Hkeys & _).
  exists d, w2, m2. split; [exact Hrun|]. split; [exact Hd | exact Hkeys].
Defined.


Lemma errors_leave_cache_untouched_witness :
  exists r w',
    get_yahoo_data demo_clock demo_yf "DOWN.NS" demo_cached = (Ok r, w') /\
    status r = 500 /\ cache w' = cache demo_cached.
Proof.
  eexists _, _. split; [vm_compute; reflexivity|]. split; [reflexivity|].
  refine (proj1 (proj1 (errors_leave_cache_untouched demo_clock demo_yf)
                   "DOWN.NS" demo_cached _ _ _) _).
  - vm_compute; reflexivity.
  - discriminate.
Defined.

(** * Further properties *)

(** ** One symbol at a time *)

Section Further.

Set Default Proof Using "Type".

Variable clock : nat -> Z.
Variable yf : nat -> string -> fetched.

Lemma valid_entry_None_iff w symbol :
  valid_entry clock w symbol = None <->
  (forall e, cache w !! symbol = Some e ->
     timedelta_seconds CACHE_DURATION <= clock (reads w) - timestamp e).
Proof.
  unfold valid_entry. destruct (cache w !! symbol) as [e|].
  - destruct (Z.ltb_spec (clock (reads w) - timestamp e)
                (timedelta_seconds CACHE_DURATION)) as [Hlt|Hge].
    + split; [discriminate|]. intros H. specialize (H e eq_refl). lia.
    + split; [|reflexivity]. intros _ e' [= <-]. exact Hge.
  - split; [|reflexivity]. intros _ e' [=].
Qed.

(** The world a single-symbol request leaves on a miss. *)
Lemma get_yahoo_data_miss_world symbol w :
  valid_entry clock w symbol = None ->
  let w0 := checked w symbol in
  exists r w',
    get_yahoo_data clock yf symbol w = (Ok r, w') /\
    ((status r <> 200 /\ w' = log_fetch symbol w0)
     \/ (status r = 200 /\
         w' = put symbol {| data := body r; timestamp := clock (S (reads w0)) |}
                (tick (tick (log_fetch symbol w0))))).
Proof.
  intros Hv w0. rewrite get_yahoo_data_miss by exact Hv. fold w0.
  assert (fetches w0 = fetches w) as Hf by apply checked_fetches.
  destruct (yf (length (fetches w0)) symbol) as [msg|i closes] eqn:Hyf.
  - rewrite (fetch_single_raises clock yf _ _ msg Hyf).
    eexists _, _. split; [reflexivity|]. left. split; [discriminate | reflexivity].
  - destruct (most_recent closes) as [cp|] eqn:Hcp.
    + rewrite (fetch_single_quote clock yf _ _ i closes cp Hyf Hcp).
      eexists _, _. split; [reflexivity|]. right. split; reflexivity.
    + assert (closes = []) as ->.
      { destruct closes as [|c closes]; [reflexivity|].
        destruct (most_recent_is_Some (c :: closes)) as [x Hx]; congruence. }
      rewrite (fetch_single_empty clock yf _ _ i Hyf).
      eexists _, _. split; [reflexivity|]. left. split; [discriminate | reflexivity].
Qed.

(** The world one bulk iteration leaves on a miss. *)
Lemma bulk_step_miss_world results symbol w :
  valid_entry clock w symbol = None ->
  let w0 := checked w symbol in
  exists v w',
    bulk_step clock yf results symbol w = (Ok (<[symbol := v]> results), w') /\
    ((is_error v /\ w' = log_fetch symbol w0)
     \/ (is_envelope v /\
         w' = put symbol {| data := v; timestamp := clock (reads w0) |}
                (tick (log_fetch symbol w0)))).
Proof.
  intros Hv w0. rewrite bulk_step_unfold.
  destruct (yf (length (fetches w)) symbol) as [msg|i closes] eqn:Hyf.
  - rewrite (bulk_symbol_raises clock yf _ _ msg Hv Hyf).
    eexists _, _. split; [reflexivity|]. left. split; [eexists|]; reflexivity.
  - destruct (most_recent closes) as [cp|] eqn:Hcp.
    + destruct (bulk_symbol_quote clock yf _ _ i closes cp Hv Hyf Hcp)
        as (pc & _ & ->).
      eexists _, _. split; [reflexivity|]. right. split; [eexists|]; reflexivity.
    + assert (closes = []) as ->.
      { destruct closes as [|c closes]; [reflexivity|].
        destruct (most_recent_is_Some (c :: closes)) as [x Hx]; congruence. }
      rewrite (bulk_symbol_empty clock yf _ _ i Hv Hyf).
      eexists _, _. split; [reflexivity|]. left. split; [eexists|]; reflexivity.
Qed.

Lemma get_yahoo_data_effect symbol w :
  effect symbol w (get_yahoo_data clock yf symbol w).2.
Proof.
  destruct (valid_entry clock w symbol) as [e|] eqn:Hv.
  - rewrite (get_yahoo_data_hit clock yf _ _ e Hv). left. cbn. auto.
  - destruct (get_yahoo_data_miss_world symbol w Hv) as (r & w' & -> & Hw).
    cbn [snd]. destruct Hw as [[_ ->]|[_ ->]]; [left | right; eexists]; cbn;
      rewrite ?checked_cache, ?checked_stored, ?checked_fetches; auto.
Qed.

Lemma bulk_step_effect results symbol w :
  effect symbol w (bulk_step clock yf results symbol w).2.
Proof.
  destruct (valid_entry clock w symbol) as [e|] eqn:Hv.
  - rewrite bulk_step_unfold, (bulk_symbol_hit clock yf _ _ e Hv).
    left. cbn. auto.
  - destruct (bulk_step_miss_world results symbol w Hv) as (r & w' & -> & Hw).
    cbn [snd]. destruct Hw as [[_ ->]|[_ ->]]; [left | right; eexists]; cbn;
      rewrite ?checked_cache, ?checked_stored, ?checked_fetches; auto.
Qed.

(** X1. A single-symbol request for a symbol that is not cached, or
    whose entry is 60 seconds old or older at the check, calls upstream
    exactly once, for that symbol, whatever the outcome. *)
Theorem expired_entry_is_fetched_once symbol w :
  (forall e, cache w !! symbol = Some e ->
     timedelta_seconds CACHE_DURATION <= clock (reads w) - timestamp e) ->
  exists r w',
    get_yahoo_data clock yf symbol w = (Ok r, w') /\
    fetches w' = symbol :: fetches w.
Proof.
  intros Hold. apply valid_entry_None_iff in Hold.
  destruct (get_yahoo_data_miss_world symbol w Hold) as (r & w' & Hrun & Hw).
  exists r, w'. split; [exact Hrun|].
  destruct Hw as [[_ ->]|[_ ->]]; cbn; rewrite checked_fetches; reflexivity.
Qed.

(** X2. A quote fetched by the single-symbol path is stored under its
    symbol, and a second request for the symbol whose check falls less
    than 60 seconds after the stored timestamp gets the very same
    response without a further upstream call. *)
Theorem fresh_quote_is_served_again symbol w i closes cp :
  valid_entry clock w symbol = None ->
  yf (length (fetches w)) symbol = Fetched i closes ->
  most_recent closes = Some cp ->
  exists r w1 e,
    get_yahoo_data clock yf symbol w = (Ok r, w1) /\ status r = 200 /\
    cache w1 !! symbol = Some e /\ data e = body r /\
    (clock (reads w1) - timestamp e < timedelta_seconds CACHE_DURATION ->
     exists w2, get_yahoo_data clock yf symbol w1 = (Ok r, w2) /\
                fetches w2 = fetches w1 /\ cache w2 = cache w1).
Proof.
  intros Hv Hyf Hcp.
  rewrite get_yahoo_data_miss by exact Hv.
  rewrite (fetch_single_quote clock yf _ _ i closes cp)
    by (rewrite ?checked_fetches; assumption).
  eexists _, _, _. split; [reflexivity|]. split; [reflexivity|].
  split; [apply lookup_insert_eq|]. split; [reflexivity|].
  intros Hage.
  match type of Hage with context [timestamp ?e0] =>
    epose proof (get_yahoo_data_hit clock yf symbol _ e0) as Hhit
  end.
  eexists. split; [apply Hhit | split; reflexivity].
  unfold valid_entry. cbn [cache put]. rewrite lookup_insert_eq.
  match goal with |- context [Z.ltb ?a ?b] =>
    destruct (Z.ltb_spec a b) as [_|Hge]; [reflexivity|] end.
  exfalso. revert Hage Hge. cbn. lia.
Qed.

(** X3. A bulk iteration on a symbol whose entry is younger than 60
    seconds assigns the cached response to the mapping, calls nothing
    upstream and leaves the cache as it is. *)
Theorem bulk_hit_serves_cached results symbol w e :
  cache w !! symbol = Some e ->
  clock (reads w) - timestamp e < timedelta_seconds CACHE_DURATION ->
  exists w',
    bulk_step clock yf results symbol w = (Ok (<[symbol := data e]> results), w') /\
    fetches w' = fetches w /\ cache w' = cache w.
Proof.
  intros Hin Hage. exists (tick w). split; [|split; reflexivity].
  rewrite bulk_step_unfold.
  rewrite (bulk_symbol_hit clock yf _ _ e); [reflexivity|].
  unfold valid_entry. rewrite Hin.
  destruct (Z.ltb_spec (clock (reads w) - timestamp e)
              (timedelta_seconds CACHE_DURATION)); [reflexivity | lia].
Qed.

(** X4. On a miss, a bulk iteration whose fetch has no price points
    assigns [{error: "No data for <symbol>"}], and one whose fetch raises
    assigns [{error: <detail>}] with the bare text of the exception; both
    call upstream once and leave the cache as it is. *)
Theorem bulk_errors_become_entries results symbol w :
  valid_entry clock w symbol = None ->
  (forall i, yf (length (fetches w)) symbol = Fetched i [] ->
     exists w',
       bulk_step clock yf results symbol w =
         (Ok (<[symbol := JObj [("error", JStr ("No data for " +:+ symbol))]]> results), w') /\
       fetches w' = symbol :: fetches w /\ cache w' = cache w)
  /\ (forall detail, yf (length (fetches w)) symbol = Raises detail ->
     exists w',
       bulk_step clock yf results symbol w =
         (Ok (<[symbol := JObj [("error", JStr detail)]]> results), w') /\
       fetches w' = symbol :: fetches w /\ cache w' = cache w).
Proof.
  intros Hv. split.
  - intros i Hyf. rewrite bulk_step_unfold.
    rewrite (bulk_symbol_empty clock yf _ _ i Hv Hyf).
    eexists. split; [reflexivity|]. cbn.
    rewrite checked_fetches, checked_cache. split; reflexivity.
  - intros detail Hyf. rewrite bulk_step_unfold.
    rewrite (bulk_symbol_raises clock yf _ _ detail Hv Hyf).
    eexists. split; [reflexivity|]. cbn.
    rewrite checked_fetches, checked_cache. split; reflexivity.
Qed.

Lemma valid_entry_fresh w symbol e :
  cache w !! symbol = Some e ->
  clock (reads w) - timestamp e < timedelta_seconds CACHE_DURATION ->
  valid_entry clock w symbol = Some e.
Proof.
  intros Hin Hage. unfold valid_entry. rewrite Hin.
  destruct (Z.ltb_spec (clock (reads w) - timestamp e)
              (timedelta_seconds CACHE_DURATION)); [reflexivity | lia].
Qed.

(** X5. The two paths share one cache.  A quote cached by a bulk
    iteration is what a single-symbol request gets while it is fresh: an
    envelope without currency, regularMarketTime, longName and outer
    error field.  A quote cached by a single-symbol request is what a
    bulk iteration assigns while it is fresh.  Neither calls upstream. *)
Theorem cache_is_shared_between_paths symbol w i closes cp :
  valid_entry clock w symbol = None ->
  yf (length (fetches w)) symbol = Fetched i closes ->
  most_recent closes = Some cp ->
  (exists d w1 e,
     bulk_symbol clock yf symbol w = (Ok d, w1) /\
     cache w1 !! symbol = Some e /\ data e = d /\
     json_keys d = ["chart"] /\
     (exists m, meta_of d = Some m /\ json_keys m = bulk_meta_keys) /\
     (clock (reads w1) - timestamp e < timedelta_seconds CACHE_DURATION ->
      exists w2, get_yahoo_data clock yf symbol w1 = (Ok (Response d 200), w2) /\
                 fetches w2 = fetches w1))
  /\ (exists r w1 e,
     get_yahoo_data clock yf symbol w = (Ok r, w1) /\
     cache w1 !! symbol = Some e /\ data e = body r /\
     (exists m, meta_of (body r) = Some m /\ json_keys m = single_meta_keys) /\
     (clock (reads w1) - timestamp e < timedelta_seconds CACHE_DURATION ->
      forall results, exists w2,
        bulk_step clock yf results symbol w1
          = (Ok (<[symbol := body r]> results), w2) /\
        fetches w2 = fetches w1)).
Proof.
  intros Hv Hyf Hcp. split.
  - destruct (bulk_symbol_quote clock yf _ _ i closes cp Hv Hyf Hcp)
      as (pc & _ & ->).
    eexists _, _, _. split; [reflexivity|].
    split; [apply lookup_insert_eq|]. split; [reflexivity|].
    split; [reflexivity|]. split; [eexists; split; reflexivity|].
    intros Hage. eexists. split.
    { match type of Hage with context [timestamp ?e0] =>
        rewrite (get_yahoo_data_hit clock yf symbol _ e0); [reflexivity|]
      end.
      apply valid_entry_fresh; [apply lookup_insert_eq | exact Hage]. }
    reflexivity.
  - rewrite get_yahoo_data_miss by exact Hv.
    rewrite (fetch_single_quote clock yf _ _ i closes cp)
      by (rewrite ?checked_fetches; assumption).
    eexists _, _, _. split; [reflexivity|].
    split; [apply lookup_insert_eq|]. split; [reflexivity|].
    split; [eexists; split; reflexivity|].
    intros Hage results. eexists. split.
    { rewrite bulk_step_unfold.
      match type of Hage with context [timestamp ?e0] =>
        rewrite (bulk_symbol_hit clock yf symbol _ e0); [reflexivity|]
      end.
      apply valid_entry_fresh; [apply lookup_insert_eq | exact Hage]. }
    reflexivity.
Qed.

Lemma previous_close_bulk_value i closes cp w pc :
  previous_close_bulk i closes cp w = (Ok pc, w) ->
  pc = match previousClose i, second_most_recent closes with
       | None, Some p => if Py.ne cp cp then p else cp
       | None, None => cp
       | Some None, Some p => p
       | Some None, None => cp
       | Some (Some v), Some p =>
           if Py.ne v cp then p else if Py.truthy v then v else cp
       | Some (Some v), None => if Py.truthy v then v else cp
       end.
Proof.
  unfold previous_close_bulk.
  destruct (Z.ltb_spec 1 (Z.of_nat (length closes))) as [Hlen|Hlen].
  - destruct (second_most_recent_is_Some closes) as [p Hp]; [lia|].
    rewrite Hp, andb_true_r.
    destruct (previousClose i) as [[v|]|].
    + destruct (Py.ne v cp).
      * rewrite iloc_second, Hp by lia. congruence.
      * unfold ret. congruence.
    + rewrite iloc_second, Hp by lia. congruence.
    + destruct (Py.ne cp cp) eqn:Hnan.
      * rewrite iloc_second, Hp by lia. congruence.
      * unfold ret. intros [= <-].
        unfold Py.truthy. destruct (Py.ne cp 0); reflexivity.
  - rewrite second_most_recent_None, andb_false_r by lia.
    destruct (previousClose i) as [[v|]|]; unfold ret; try congruence.
    intros [= <-]. unfold Py.truthy. destruct (Py.ne cp 0); reflexivity.
Qed.

(** X6. What the bulk path reports as [previousClose] for a fetched
    quote.  With two price points it is the earlier close whenever the
    metadata entry is [None] or a number different from the current
    price; with a metadata number equal to the current price, or a single
    price point, it is that number unless it is zero, and otherwise the
    current price.  Without the metadata key it is the current price,
    even when two price points exist (a NaN price, which differs from
    itself, excepted). *)
Theorem bulk_previous_close_rule symbol w i closes cp :
  valid_entry clock w symbol = None ->
  yf (length (fetches w)) symbol = Fetched i closes ->
  most_recent closes = Some cp ->
  exists d w',
    bulk_symbol clock yf symbol w = (Ok d, w') /\
    meta_field "previousClose" d =
      Some (JNum match previousClose i, second_most_recent closes with
                 | None, Some p => if Py.ne cp cp then p else cp
                 | None, None => cp
                 | Some None, Some p => p
                 | Some None, None => cp
                 | Some (Some v), Some p =>
                     if Py.ne v cp then p else if Py.truthy v then v else cp
                 | Some (Some v), None => if Py.truthy v then v else cp
                 end).
Proof.
  intros Hv Hyf Hcp.
  destruct (bulk_symbol_quote clock yf _ _ i closes cp Hv Hyf Hcp)
    as (pc & Hpc & ->).
  eexists _, _. split; [reflexivity|].
  apply previous_close_bulk_value in Hpc. rewrite <- Hpc. reflexivity.
Qed.

(** X7. Metadata the upstream leaves out is defaulted: the
    single-symbol envelope reports currency "INR", and the symbol itself
    as shortName and longName, when the metadata has no such key, and
    passes on whatever the key holds otherwise; the bulk envelope does
    the same for shortName.  The reported regularMarketTime is the clock
    reading in whole seconds. *)
Theorem missing_metadata_is_defaulted symbol w i closes cp :
  valid_entry clock w symbol = None ->
  yf (length (fetches w)) symbol = Fetched i closes ->
  most_recent closes = Some cp ->
  (exists r w',
     get_yahoo_data clock yf symbol w = (Ok r, w') /\
     meta_field "symbol" (body r) = Some (JStr symbol) /\
     meta_field "currency" (body r) =
       Some (match currency i with Some v => v | None => JStr "INR" end) /\
     meta_field "shortName" (body r) =
       Some (match shortName i with Some v => v | None => JStr symbol end) /\
     meta_field "longName" (body r) =
       Some (match longName i with Some v => v | None => JStr symbol end) /\
     meta_field "regularMarketTime" (body r) =
       Some (JInt (clock (reads (checked w symbol)) `quot` 1000000)))
  /\ (exists d w',
     bulk_symbol clock yf symbol w = (Ok d, w') /\
     meta_field "symbol" d = Some (JStr symbol) /\
     meta_field "shortName" d =
       Some (match shortName i with Some v => v | None => JStr symbol end)).
Proof.
  intros Hv Hyf Hcp. split.
  - rewrite get_yahoo_data_miss by exact Hv.
    rewrite (fetch_single_quote clock yf _ _ i closes cp)
      by (rewrite ?checked_fetches; assumption).
    eexists _, _. split; [reflexivity|]. repeat split.
  - destruct (bulk_symbol_quote clock yf _ _ i closes cp Hv Hyf Hcp)
      as (pc & _ & ->).
    eexists _, _. split; [reflexivity|]. repeat split.
Qed.

(** X8. Refreshing an expired entry replaces it in place: the cache
    keeps its keys and its size, the symbol is bound to the new response
    with the third clock reading of the request as timestamp; when the
    refresh fails, the expired entry stays where it is. *)
Theorem refresh_replaces_entry symbol w e :
  cache w !! symbol = Some e ->
  timedelta_seconds CACHE_DURATION <= clock (reads w) - timestamp e ->
  exists r w',
    get_yahoo_data clock yf symbol w = (Ok r, w') /\
    dom (cache w') = dom (cache w) /\ size (cache w') = size (cache w) /\
    (status r = 200 ->
     cache w' !! symbol =
       Some {| data := body r; timestamp := clock (S (S (reads w))) |}) /\
    (status r <> 200 -> cache w' !! symbol = Some e).
Proof.
  intros Hin Hold.
  assert (valid_entry clock w symbol = None) as Hv.
  { apply valid_entry_None_iff. intros e' He'.
    rewrite Hin in He'. injection He' as <-. exact Hold. }
  assert (checked w symbol = tick w) as Hw0 by (unfold checked; rewrite Hin; reflexivity).
  destruct (get_yahoo_data_miss_world symbol w Hv) as (r & w' & Hrun & Hw).
  rewrite Hw0 in Hw. exists r, w'. split; [exact Hrun|].
  destruct Hw as [[Hs ->]|[Hs ->]]; cbn [cache put log_fetch tick reads].
  - split; [reflexivity|]. split; [reflexivity|].
    split; [intros; contradiction | intros _; exact Hin].
  - assert (dom (<[symbol := {| data := body r;
                                timestamp := clock (S (S (reads w))) |}]> (cache w))
            = dom (cache w)) as Hdom.
    { rewrite dom_insert_L. apply (elem_of_dom_2 (D := gset string)) in Hin.
      set_solver. }
    split; [exact Hdom|].
    split; [rewrite <- !(size_dom (D := gset string)), Hdom; reflexivity|].
    split; [intros _; apply lookup_insert_eq | intros; contradiction].
Qed.

(** X9. A symbol listed twice in a row is fetched once: when the second
    check falls less than 60 seconds after the first iteration's write,
    the loop calls upstream once, writes the cache once and binds the
    symbol to the envelope of the first iteration. *)
Theorem repeated_symbol_is_fetched_once symbol w i closes cp :
  valid_entry clock w symbol = None ->
  yf (length (fetches w)) symbol = Fetched i closes ->
  most_recent closes = Some cp ->
  clock (S (reads (checked w symbol))) - clock (reads (checked w symbol))
    < timedelta_seconds CACHE_DURATION ->
  exists d w1 w',
    bulk_symbol clock yf symbol w = (Ok d, w1) /\
    bulk_loop clock yf [symbol; symbol] ∅ w = (Ok {[symbol := d]}, w') /\
    fetches w' = symbol :: fetches w /\ stored w' = symbol :: stored w.
Proof.
  intros Hv Hyf Hcp Hage.
  destruct (bulk_symbol_quote clock yf _ _ i closes cp Hv Hyf Hcp)
    as (pc & _ & Hrun).
  eexists _, _, _. split; [exact Hrun|].
  cbn [bulk_loop].
  erewrite bind_ok by (rewrite bulk_step_unfold, Hrun; reflexivity).
  erewrite bind_ok.
  2: { rewrite bulk_step_unfold.
       erewrite bulk_symbol_hit; [reflexivity|].
       apply valid_entry_fresh; [apply lookup_insert_eq | exact Hage]. }
  cbn. rewrite insert_insert_eq, insert_empty.
  split; [reflexivity|]. cbn. rewrite checked_fetches, checked_stored.
  split; reflexivity.
Qed.

(** X10. [/api/nifty-data] is the single-symbol path at "^NSEI": a
    quote it fetches names that symbol and is cached under it, so that
    while the entry is fresh both [/api/nifty-data] and
    [/api/yahoo-finance/^NSEI] answer with it again; an upstream failure
    is reported with the symbol in the message. *)
Theorem nifty_is_the_nsei_quote w :
  valid_entry clock w "^NSEI" = None ->
  (forall i closes cp,
     yf (length (fetches w)) "^NSEI" = Fetched i closes ->
     most_recent closes = Some cp ->
     exists r w1 e,
       get_nifty_data clock yf w = (Ok r, w1) /\ status r = 200 /\
       meta_field "symbol" (body r) = Some (JStr "^NSEI") /\
       cache w1 !! "^NSEI" = Some e /\ data e = body r /\
       (clock (reads w1) - timestamp e < timedelta_seconds CACHE_DURATION ->
        get_nifty_data clock yf w1 = (Ok r, tick w1) /\
        get_yahoo_data clock yf "^NSEI" w1 = (Ok r, tick w1)))
  /\ (forall detail,
     yf (length (fetches w)) "^NSEI" = Raises detail ->
     exists w1,
       get_nifty_data clock yf w =
       (Ok (Response (JObj [("error",
              JStr ("Error fetching data for ^NSEI: " +:+ detail))]) 500), w1)).
Proof.
  intros Hv. unfold get_nifty_data. split.
  - intros i closes cp Hyf Hcp.
    rewrite get_yahoo_data_miss by exact Hv.
    rewrite (fetch_single_quote clock yf _ _ i closes cp)
      by (rewrite ?checked_fetches; assumption).
    eexists _, _, _. split; [reflexivity|]. split; [reflexivity|].
    split; [reflexivity|]. split; [apply lookup_insert_eq|].
    split; [reflexivity|]. intros Hage.
    match type of Hage with context [timestamp ?e0] =>
      rewrite (get_yahoo_data_hit clock yf "^NSEI" _ e0); [split; reflexivity|]
    end.
    apply valid_entry_fresh; [apply lookup_insert_eq | exact Hage].
  - intros detail Hyf. rewrite get_yahoo_data_miss by exact Hv.
    rewrite (fetch_single_raises clock yf _ _ detail)
      by (rewrite checked_fetches; exact Hyf).
    eexists. reflexivity.
Qed.

(** ** Whole requests *)

Lemma effect_frame symbol w w' s :
  effect symbol w w' -> s <> symbol -> cache w' !! s = cache w !! s.
Proof.
  intros [(-> & _)|(e & -> & _)] Hne; [reflexivity|].
  apply lookup_insert_ne. congruence.
Qed.

Lemma effect_written symbol w w' :
  effect symbol w w' -> written_were_fetched w -> written_were_fetched w'.
Proof.
  unfold written_were_fetched.
  intros [(_ & -> & [->| ->])|(e & _ & -> & ->)] Hinv s Hs.
  - auto.
  - right. auto.
  - apply elem_of_cons in Hs as [->|Hs]; [left | right; auto].
Qed.

Lemma bulk_step_world results symbol w :
  exists results' w',
    bulk_step clock yf results symbol w = (Ok results', w') /\
    effect symbol w w'.
Proof.
  destruct (bulk_step_cases clock yf results symbol w) as (v & w' & Hrun & _).
  exists (<[symbol := v]> results), w'. split; [exact Hrun|].
  pose proof (bulk_step_effect results symbol w) as He.
  rewrite Hrun in He. exact He.
Qed.

(** The upstream calls of a loop, newest first, are picked in order from
    its symbols. *)
Lemma bulk_loop_calls symbols : forall results w results' w',
  bulk_loop clock yf symbols results w = (Ok results', w') ->
  (exists called,
     fetches w' = (called ++ fetches w)%list /\
     called `sublist_of` reverse symbols)
  /\ (written_were_fetched w -> written_were_fetched w').
Proof.
  induction symbols as [|symbol rest IH]; intros results w results' w' Hloop.
  - cbn in Hloop. injection Hloop as <- <-.
    split; [exists []; split; [reflexivity | apply sublist_nil_l] | auto].
  - destruct (bulk_step_world results symbol w) as (r1 & w1 & Hstep & He).
    cbn in Hloop. erewrite bind_ok in Hloop by exact Hstep.
    destruct (IH _ _ _ _ Hloop) as ((called & Hf & Hsub) & Hinv).
    split; [|eauto using effect_written].
    rewrite reverse_cons.
    assert (fetches w1 = fetches w \/ fetches w1 = symbol :: fetches w) as [Hf1|Hf1]
      by (destruct He as [(_ & _ & H)|(e & _ & _ & H)]; auto).
    + exists called. rewrite Hf, Hf1. split; [reflexivity|].
      apply sublist_inserts_r, Hsub.
    + exists (called ++ [symbol])%list. rewrite Hf, Hf1, <- app_assoc.
      split; [reflexivity|]. apply sublist_app; [exact Hsub | reflexivity].
Qed.

(** X11. No request retries or fetches on its own account: a
    single-symbol request calls upstream at most once, and only for its
    symbol; the calls of a bulk loop, latest first, are a subsequence of
    its symbol list read backwards, so each listed occurrence is fetched
    at most once and nothing else is. *)
Theorem upstream_is_called_at_most_once_per_symbol :
  (forall symbol w,
     fetches (get_yahoo_data clock yf symbol w).2 = fetches w \/
     fetches (get_yahoo_data clock yf symbol w).2 = symbol :: fetches w)
  /\ (forall symbols results w,
     exists called,
       fetches (bulk_loop clock yf symbols results w).2
         = (called ++ fetches w)%list /\
       called `sublist_of` reverse symbols /\
       (length called <= length symbols)%nat).
Proof.
  split.
  - intros symbol w.
    destruct (get_yahoo_data_effect symbol w) as [(_ & _ & H)|(e & _ & _ & H)]; auto.
  - intros symbols results w.
    destruct (bulk_loop_total clock yf symbols results w) as (r' & w' & Hloop).
    destruct (bulk_loop_calls _ _ _ _ _ Hloop) as ((called & Hf & Hsub) & _).
    exists called. rewrite Hloop. split; [exact Hf|]. split; [exact Hsub|].
    rewrite <- (length_reverse symbols). apply sublist_length, Hsub.
Qed.

(** X12. A request touches the cache entries of its own symbols only: a
    single-symbol request leaves every other symbol's entry as it was,
    and a bulk request every entry whose symbol is not in its list (all
    of them when the parameter is missing or empty). *)
Theorem other_entries_are_untouched :
  (forall symbol w s,
     s <> symbol ->
     cache (get_yahoo_data clock yf symbol w).2 !! s = cache w !! s)
  /\ (forall arg w s,
     (forall a, arg = Some a -> s ∉ map Py.strip (Py.split "," a)) ->
     cache (get_bulk_yahoo_data clock yf arg w).2 !! s = cache w !! s).
Proof.
  split.
  - intros symbol w s Hne. eapply effect_frame; [apply get_yahoo_data_effect | exact Hne].
  - intros arg w s Hout. destruct arg as [[|c a]|]; try reflexivity.
    destruct (bulk_loop_total clock yf (map Py.strip (Py.split "," (String c a))) ∅ w)
      as (results & w' & Hloop).
    rewrite (get_bulk_yahoo_data_run clock yf _ results w') by (exact Hloop || discriminate).
    destruct (bulk_loop_run clock yf _ _ _ _ _ Hloop) as (_ & _ & Hframe & _).
    apply Hframe, Hout. reflexivity.
Qed.

Section FurtherServer.

Variable isoformat : Z -> string.

(** X13. Every request is answered, and with a fixed set of statuses:
    a bulk request with 400 exactly when its parameter is missing or
    empty and with 200 otherwise, never with 500; a single-symbol or
    nifty request with 200, 404 or 500; the health check with 200.  Every
    answer other than 200 carries an error object. *)
Theorem every_request_is_answered r w :
  exists resp w',
    handler clock yf isoformat r w = (Ok resp, w') /\
    match r with
    | GetBulk arg =>
        (status resp = 400 <-> arg = None \/ arg = Some "") /\
        (status resp = 200 <-> exists a, arg = Some a /\ a <> "") /\
        (status resp = 400 \/ status resp = 200)
    | GetHealth => status resp = 200
    | _ => status resp = 200 \/ status resp = 404 \/ status resp = 500
    end /\
    (status resp <> 200 -> is_error (body resp)).
Proof.
  destruct r as [symbol|arg| |]; cbn [handler].
  - destruct (get_yahoo_data_cases clock yf symbol w) as (r & w' & Hrun & Hcase).
    exists r, w'. split; [exact Hrun|].
    destruct Hcase as [(e & _ & -> & _)|[(_ & He & [Hs|Hs] & _)|(_ & Hs & _)]];
      cbn; rewrite ?Hs; split; auto; congruence.
  - destruct arg as [[|c a]|].
    + eexists _, _. split; [reflexivity|]. cbn. split; [split|].
      * split; [auto | reflexivity].
      * split; [|auto]. split; [discriminate|]. intros (a & [= <-] & Ha). congruence.
      * intros _. eexists; reflexivity.
    + destruct (bulk_loop_total clock yf (map Py.strip (Py.split "," (String c a))) ∅ w)
        as (results & w' & Hloop).
      rewrite (get_bulk_yahoo_data_run clock yf _ results w') by (exact Hloop || discriminate).
      eexists _, _. split; [reflexivity|]. cbn. split; [split|].
      * split; [discriminate | intros [|]; discriminate].
      * split; [|auto]. split; [|reflexivity]. intros _. eexists; split; [reflexivity | discriminate].
      * congruence.
    + eexists _, _. split; [reflexivity|]. cbn. split; [split|].
      * split; [auto | reflexivity].
      * split; [|auto]. split; [discriminate|]. intros (a & [=] & _).
      * intros _. eexists; reflexivity.
  - destruct (get_yahoo_data_cases clock yf "^NSEI" w) as (r & w' & Hrun & Hcase).
    exists r, w'. split; [exact Hrun|].
    destruct Hcase as [(e & _ & -> & _)|[(_ & He & [Hs|Hs] & _)|(_ & Hs & _)]];
      cbn; rewrite ?Hs; split; auto; congruence.
  - eexists _, _. split; [reflexivity|]. cbn. split; [reflexivity | congruence].
Qed.

Lemma handler_written r w :
  written_were_fetched w ->
  written_were_fetched (handler clock yf isoformat r w).2.
Proof.
  intros Hinv. destruct r as [symbol|arg| |]; cbn [handler].
  - eapply effect_written; [apply get_yahoo_data_effect | exact Hinv].
  - destruct arg as [[|c a]|]; try exact Hinv.
    destruct (bulk_loop_total clock yf (map Py.strip (Py.split "," (String c a))) ∅ w)
      as (results & w' & Hloop).
    rewrite (get_bulk_yahoo_data_run clock yf _ results w') by (exact Hloop || discriminate).
    destruct (bulk_loop_calls _ _ _ _ _ Hloop) as (_ & H). apply H, Hinv.
  - eapply effect_written; [apply get_yahoo_data_effect | exact Hinv].
  - exact Hinv.
Qed.

Lemma serve_written rs : forall w,
  written_were_fetched w ->
  written_were_fetched (serve clock yf isoformat rs w).2.
Proof.
  induction rs as [|r rest IH]; intros w Hinv; [exact Hinv|].
  rewrite serve_step. cbn [snd]. apply IH, handler_written, Hinv.
Qed.

Lemma size_list_to_set_le (l : list string) :
  (size (list_to_set l : gset string) <= length l)%nat.
Proof.
  induction l as [|x l IH]; [rewrite list_to_set_nil, size_empty; lia|].
  rewrite list_to_set_cons, size_union_alt, size_singleton. cbn [length].
  pose proof (subseteq_size (list_to_set l ∖ {[x]} : gset string) (list_to_set l)) as H.
  assert (list_to_set l ∖ {[x]} ⊆ (list_to_set l : gset string)) as Hsub by set_solver.
  specialize (H Hsub). lia.
Qed.

(** X14. Over any sequence of requests served from the empty cache,
    every cached symbol is one that was requested upstream, and the
    number of cache entries never exceeds the number of upstream calls. *)
Theorem cached_symbols_were_fetched rs :
  let w := (serve clock yf isoformat rs init).2 in
  (forall s, is_Some (cache w !! s) -> s ∈ fetches w)
  /\ (size (cache w) <= length (fetches w))%nat.
Proof.
  intros w.
  assert (written_were_fetched w) as Hinv.
  { apply serve_written. intros s Hs. inversion Hs. }
  destruct (serve_grows clock yf isoformat rs init) as (l & Hs & Hd).
  fold w in Hs, Hd. cbn in Hs, Hd.
  rewrite app_nil_r in Hs. rewrite dom_empty_L, (right_id_L ∅ (∪)) in Hd.
  rewrite <- Hs in Hd.
  assert (dom (cache w) ⊆ (list_to_set (fetches w) : gset string)) as Hsub.
  { rewrite Hd. intros s. rewrite !elem_of_list_to_set. apply Hinv. }
  split.
  - intros s Hin. apply elem_of_dom, Hsub, elem_of_list_to_set in Hin. exact Hin.
  - rewrite <- (size_dom (D := gset string)).
    etransitivity; [apply subseteq_size, Hsub | apply size_list_to_set_le].
Qed.

End FurtherServer.

End Further.

(** ** The symbols parameter *)

Lemma split_chars sep s : forall piece,
  piece ∈ Py.split sep s ->
  forall c, c ∈ chars piece -> c ∈ chars s /\ c <> sep.
Proof.
  induction s as [|a s IH]; intros piece Hin c Hc.
  - apply list_elem_of_singleton in Hin as ->. inversion Hc.
  - cbn [Py.split] in Hin. destruct (decide (a = sep)) as [->|Hne].
    + apply elem_of_cons in Hin as [->|Hin]; [inversion Hc|].
      destruct (IH piece Hin c Hc) as [H1 H2]. split; [right; exact H1 | exact H2].
    + destruct (Py.split sep s) as [|p ps] eqn:Hsplit.
      * apply list_elem_of_singleton in Hin as ->.
        apply list_elem_of_singleton in Hc as ->. split; [left | exact Hne].
      * apply elem_of_cons in Hin as [->|Hin].
        -- apply elem_of_cons in Hc as [->|Hc]; [split; [left | exact Hne]|].
           destruct (IH p (ltac:(left)) c Hc) as [H1 H2].
           split; [right; exact H1 | exact H2].
        -- destruct (IH piece (ltac:(right; exact Hin)) c Hc) as [H1 H2].
           split; [right; exact H1 | exact H2].
Qed.

Lemma split_length sep s :
  length (Py.split sep s) = S (length (filter (fun c => c = sep) (chars s))).
Proof.
  induction s as [|a s IH]; [reflexivity|].
  cbn [Py.split]. change (chars (String a s)) with (a :: chars s).
  destruct (decide (a = sep)) as [->|Hne].
  - rewrite filter_cons_True by reflexivity. cbn [length]. rewrite IH. reflexivity.
  - rewrite filter_cons_False by exact Hne.
    destruct (Py.split sep s) as [|p ps]; [discriminate|]. exact IH.
Qed.

Lemma lstrip_chars s c : c ∈ chars (Py.lstrip s) -> c ∈ chars s.
Proof.
  induction s as [|a s IH]; [auto|]. cbn [Py.lstrip].
  destruct (Py.isspace a); [|auto]. intros H. right. auto.
Qed.

Lemma rstrip_chars s c : c ∈ chars (Py.rstrip s) -> c ∈ chars s.
Proof.
  revert c. induction s as [|a s IH]; intros c; [auto|]. cbn [Py.rstrip].
  destruct (Py.rstrip s) as [|b t].
  - destruct (Py.isspace a); [inversion 1|].
    intros H. apply list_elem_of_singleton in H as ->. left.
  - intros H. apply elem_of_cons in H as [->|H]; [left | right; auto].
Qed.

Lemma lstrip_head s c t : Py.lstrip s = String c t -> Py.isspace c = false.
Proof.
  induction s as [|a s IH]; [discriminate|]. cbn [Py.lstrip].
  destruct (Py.isspace a) eqn:Ha; [exact IH|]. intros [= <- _]. exact Ha.
Qed.

Lemma rstrip_head c s :
  Py.isspace c = false -> exists t, Py.rstrip (String c s) = String c t.
Proof.
  intros Hc. cbn [Py.rstrip]. destruct (Py.rstrip s); rewrite ?Hc; eauto.
Qed.

Lemma rstrip_last s : forall pre c,
  Py.rstrip s = pre +:+ String c "" -> Py.isspace c = false.
Proof.
  induction s as [|a s IH]; intros pre c.
  - destruct pre; discriminate.
  - cbn [Py.rstrip]. destruct (Py.rstrip s) as [|b t] eqn:Hr.
    + destruct (Py.isspace a) eqn:Ha; [destruct pre; discriminate|].
      destruct pre as [|p pre]; [intros [= <-]; exact Ha|].
      intros [= _ H]. destruct pre; discriminate.
    + destruct pre as [|p pre]; [discriminate|].
      intros [= _ H]. apply (IH pre c). exact H.
Qed.

(** What [s.strip()] leaves: nothing new, and no whitespace at either
    end. *)
Lemma strip_trimmed s :
  (forall c, c ∈ chars (Py.strip s) -> c ∈ chars s)
  /\ (forall c t, Py.strip s = String c t -> Py.isspace c = false)
  /\ (forall pre c, Py.strip s = pre +:+ String c "" -> Py.isspace c = false).
Proof.
  unfold Py.strip. split; [|split].
  - intros c H. apply lstrip_chars, rstrip_chars, H.
  - intros c t H. destruct (Py.lstrip s) as [|a u] eqn:Hl; [discriminate|].
    pose proof (lstrip_head _ _ _ Hl) as Ha.
    destruct (rstrip_head a u Ha) as [t' Ht]. rewrite Ht in H.
    injection H as <- _. exact Ha.
  - intros pre c. apply rstrip_last.
Qed.

Lemma lstrip_blank s :
  (forall c, c ∈ chars s -> Py.isspace c = true) -> Py.lstrip s = "".
Proof.
  induction s as [|a s IH]; intros H; [reflexivity|]. cbn [Py.lstrip].
  rewrite (H a) by left. apply IH. intros c Hc. apply H. right. exact Hc.
Qed.

(** The pieces of a parameter made of whitespace and commas all strip to
    the empty symbol. *)
Lemma blank_symbols arg s :
  blank arg -> s ∈ map Py.strip (Py.split "," arg) -> s = "".
Proof.
  intros Hblank Hs. apply list_elem_of_fmap_1 in Hs as (piece & -> & Hpiece).
  unfold Py.strip. rewrite lstrip_blank; [reflexivity|].
  intros c Hc. destruct (split_chars _ _ _ Hpiece c Hc) as [Hin Hne].
  destruct (Hblank c Hin); [assumption | contradiction].
Qed.

Section SymbolsParameter.

Set Default Proof Using "Type".

Variable clock : nat -> Z.
Variable yf : nat -> string -> fetched.

(** X15. The keys of a bulk answer are the pieces between the commas of
    the parameter, trimmed: no key contains a comma or starts or ends
    with whitespace, every key is made of characters of the parameter,
    and there are at most one more keys than commas. *)
Theorem bulk_keys_are_trimmed arg w :
  arg <> "" ->
  exists results w',
    get_bulk_yahoo_data clock yf (Some arg) w =
      (Ok (Response (JObj (map_to_list results)) 200), w') /\
    (size results <= S (length (filter (fun c => c = ","%char) (chars arg))))%nat /\
    forall s, is_Some (results !! s) ->
      (forall c, c ∈ chars s -> c ∈ chars arg /\ c <> ","%char) /\
      (forall c t, s = String c t -> Py.isspace c = false) /\
      (forall pre c, s = pre +:+ String c "" -> Py.isspace c = false).
Proof.
  intros Harg.
  destruct (bulk_loop_total clock yf (map Py.strip (Py.split "," arg)) ∅ w)
    as (results & w' & Hloop).
  destruct (bulk_loop_run clock yf _ _ _ _ _ Hloop) as (Hdom & _).
  rewrite dom_empty_L, (left_id_L ∅ (∪)) in Hdom.
  exists results, w'. split; [apply get_bulk_yahoo_data_run; assumption|]. split.
  - rewrite <- (size_dom (D := gset string)), Hdom, <- split_length.
    rewrite <- (length_map Py.strip). apply size_list_to_set_le.
  - intros s Hs. apply elem_of_dom in Hs. rewrite Hdom in Hs.
    apply elem_of_list_to_set, list_elem_of_fmap_1 in Hs as (piece & -> & Hpiece).
    destruct (strip_trimmed piece) as (Hchars & Hhead & Hlast).
    split; [|split; [exact Hhead | exact Hlast]].
    intros c Hc. apply (split_chars _ _ _ Hpiece), Hchars, Hc.
Qed.

(** X16. A parameter that is not empty but holds only commas and
    whitespace is not rejected: the answer is 200 with a mapping whose
    only key is the empty symbol, and every upstream call the request
    makes is for the empty symbol. *)
Theorem blank_parameter_asks_for_the_empty_symbol arg w :
  arg <> "" ->
  blank arg ->
  exists results w' called,
    get_bulk_yahoo_data clock yf (Some arg) w =
      (Ok (Response (JObj (map_to_list results)) 200), w') /\
    dom results = {[ "" ]} /\
    fetches w' = (called ++ fetches w)%list /\
    (forall s, s ∈ called -> s = "").
Proof.
  intros Harg Hblank.
  destruct (bulk_loop_total clock yf (map Py.strip (Py.split "," arg)) ∅ w)
    as (results & w' & Hloop).
  destruct (bulk_loop_run clock yf _ _ _ _ _ Hloop) as (Hdom & _).
  destruct (bulk_loop_calls clock yf _ _ _ _ _ Hloop) as ((called & Hf & Hsub) & _).
  rewrite dom_empty_L, (left_id_L ∅ (∪)) in Hdom.
  exists results, w', called.
  split; [apply get_bulk_yahoo_data_run; assumption|]. split; [|split; [exact Hf|]].
  - rewrite Hdom. apply set_eq. intros s.
    rewrite elem_of_list_to_set, elem_of_singleton. split.
    + apply blank_symbols, Hblank.
    + intros ->.
      destruct (map Py.strip (Py.split "," arg)) as [|s0 l] eqn:Hl.
      * apply (f_equal length) in Hl. rewrite length_map, split_length in Hl.
        discriminate.
      * rewrite <- (blank_symbols arg s0 Hblank); [left|]. rewrite Hl. left.
  - intros s Hs. apply (blank_symbols arg s Hblank).
    apply elem_of_reverse. eapply elem_of_sublist; eassumption.
Qed.

End SymbolsParameter.

(** ** What an answer tells about its cause *)

Section Causes.

Set Default Proof Using "Type".

Variable clock : nat -> Z.
Variable yf : nat -> string -> fetched.

(** X17. Nothing but the upstream makes a request fail.  A 500 answer
    of the single-symbol path means that the upstream call of this
    request raised, and carries its text; a 404 answer means that the
    call returned no price point; a 200 answer is a fresh cache entry or
    a fetch with at least one price point.  Likewise an error object
    assigned by a bulk iteration on a miss is the text of an upstream
    exception or the no-data message of an empty history. *)
Theorem failures_come_from_upstream symbol w :
  (exists r w',
     get_yahoo_data clock yf symbol w = (Ok r, w') /\
     (status r = 500 ->
      valid_entry clock w symbol = None /\
      exists detail,
        yf (length (fetches w)) symbol = Raises detail /\
        body r = error_body ("Error fetching data for " +:+ symbol +:+ ": " +:+ detail)) /\
     (status r = 404 ->
      valid_entry clock w symbol = None /\
      exists i, yf (length (fetches w)) symbol = Fetched i []) /\
     (status r = 200 ->
      (exists e, valid_entry clock w symbol = Some e /\ body r = data e) \/
      (valid_entry clock w symbol = None /\
       exists i closes, yf (length (fetches w)) symbol = Fetched i closes /\
                        closes <> [])))
  /\ (forall results,
     exists v w',
       bulk_step clock yf results symbol w = (Ok (<[symbol := v]> results), w') /\
       (valid_entry clock w symbol = None -> is_error v ->
        (exists detail, yf (length (fetches w)) symbol = Raises detail /\
                        v = error_body detail) \/
        (exists i, yf (length (fetches w)) symbol = Fetched i [] /\
                   v = error_body ("No data for " +:+ symbol)))).
Proof.
  split.
  - destruct (valid_entry clock w symbol) as [e|] eqn:Hv.
    + rewrite (get_yahoo_data_hit clock yf _ _ e Hv).
      eexists _, _. split; [reflexivity|]. cbn.
      split; [discriminate|]. split; [discriminate|]. left. eauto.
    + rewrite get_yahoo_data_miss by exact Hv.
      destruct (yf (length (fetches w)) symbol) as [msg|i closes] eqn:Hyf.
      * rewrite (fetch_single_raises clock yf _ _ msg)
          by (rewrite checked_fetches; exact Hyf).
        eexists _, _. split; [reflexivity|]. cbn.
        split; [eauto|]. split; discriminate.
      * destruct (most_recent closes) as [cp|] eqn:Hcp.
        -- rewrite (fetch_single_quote clock yf _ _ i closes cp)
             by (rewrite ?checked_fetches; assumption).
           eexists _, _. split; [reflexivity|]. cbn.
           split; [discriminate|]. split; [discriminate|].
           intros _. right. split; [reflexivity|]. exists i, closes.
           split; [reflexivity|]. intros ->. discriminate.
        -- assert (closes = []) as ->.
           { destruct closes as [|c closes]; [reflexivity|].
             destruct (most_recent_is_Some (c :: closes)) as [x Hx]; congruence. }
           rewrite (fetch_single_empty clock yf _ _ i)
             by (rewrite checked_fetches; exact Hyf).
           eexists _, _. split; [reflexivity|]. cbn.
           split; [discriminate|]. split; [eauto | discriminate].
  - intros results. rewrite bulk_step_unfold.
    destruct (valid_entry clock w symbol) as [e|] eqn:Hv.
    + rewrite (bulk_symbol_hit clock yf _ _ e Hv).
      eexists _, _. split; [reflexivity | discriminate].
    + destruct (yf (length (fetches w)) symbol) as [msg|i closes] eqn:Hyf.
      * rewrite (bulk_symbol_raises clock yf _ _ msg Hv Hyf).
        eexists _, _. split; [reflexivity|]. intros _ _. left. eauto.
      * destruct (most_recent closes) as [cp|] eqn:Hcp.
        -- destruct (bulk_symbol_quote clock yf _ _ i closes cp Hv Hyf Hcp)
             as (pc & _ & ->).
           eexists _, _. split; [reflexivity|]. intros _ [msg Hmsg]. discriminate.
        -- assert (closes = []) as ->.
           { destruct closes as [|c closes]; [reflexivity|].
             destruct (most_recent_is_Some (c :: closes)) as [x Hx]; congruence. }
           rewrite (bulk_symbol_empty clock yf _ _ i Hv Hyf).
           eexists _, _. split; [reflexivity|]. intros _ _. right. eauto.
Qed.

End Causes.

(** ** The further properties at work on the demo upstream *)

Lemma expired_entry_is_fetched_once_witness :
  (forall e, cache demo_cached !! "TCS.NS" = Some e ->
     timedelta_seconds CACHE_DURATION
       <= demo_late_clock (reads demo_cached) - timestamp e) /\
  exists r w',
    get_yahoo_data demo_late_clock demo_yf "TCS.NS" demo_cached = (Ok r, w') /\
    fetches w' = "TCS.NS" :: fetches demo_cached.
Proof.
  assert (forall e, cache demo_cached !! "TCS.NS" = Some e ->
            timedelta_seconds CACHE_DURATION
              <= demo_late_clock (reads demo_cached) - timestamp e) as Hold.
  { intros e He. vm_compute in He. injection He as <-. vm_compute. discriminate. }
  split; [exact Hold|].
  exact (expired_entry_is_fetched_once demo_late_clock demo_yf "TCS.NS"
           demo_cached Hold).
Defined.

Lemma fresh_quote_is_served_again_witness :
  valid_entry demo_clock init "INFY.NS" = None /\
  demo_yf (length (fetches init)) "INFY.NS"
    = Fetched (demo_info None) [98%float; 105%float] /\
  most_recent [98%float; 105%float] = Some 105%float /\
  exists r w1 e,
    get_yahoo_data demo_clock demo_yf "INFY.NS" init = (Ok r, w1) /\
    cache w1 !! "INFY.NS" = Some e /\ data e = body r.
Proof.
  split; [reflexivity|]. split; [reflexivity|]. split; [reflexivity|].
  destruct (fresh_quote_is_served_again demo_clock demo_yf "INFY.NS" init
              (demo_info None) [98%float; 105%float] 105%float
              eq_refl eq_refl eq_refl)
    as (r & w1 & e & Hrun & _ & Hin & Hdata & _).
  exists r, w1, e. split; [exact Hrun|]. split; [exact Hin | exact Hdata].
Defined.

Lemma bulk_hit_serves_cached_witness :
  exists e,
    cache demo_cached !! "TCS.NS" = Some e /\
    demo_clock (reads demo_cached) - timestamp e < timedelta_seconds CACHE_DURATION /\
    exists w',
      bulk_step demo_clock demo_yf ∅ "TCS.NS" demo_cached
        = (Ok (<["TCS.NS" := data e]> ∅), w') /\
      fetches w' = fetches demo_cached /\ cache w' = cache demo_cached.
Proof.
  eexists. split; [vm_compute; reflexivity|]. split; [vm_compute; reflexivity|].
  apply (bulk_hit_serves_cached demo_clock demo_yf ∅ "TCS.NS" demo_cached);
    vm_compute; reflexivity.
Defined.

Lemma bulk_errors_become_entries_witness :
  valid_entry demo_clock init "DOWN.NS" = None /\
  demo_yf (length (fetches init)) "DOWN.NS" = Raises "connection reset" /\
  exists w',
    bulk_step demo_clock demo_yf ∅ "DOWN.NS" init =
      (Ok (<["DOWN.NS" := JObj [("error", JStr "connection reset")]]> ∅), w') /\
    fetches w' = "DOWN.NS" :: fetches init /\ cache w' = cache init.
Proof.
  split; [reflexivity|]. split; [reflexivity|].
  destruct (bulk_errors_become_entries demo_clock demo_yf ∅ "DOWN.NS" init eq_refl)
    as [_ Hraise].
  apply (Hraise "connection reset"). reflexivity.
Defined.

Lemma cache_is_shared_between_paths_witness :
  valid_entry demo_clock init "TCS.NS" = None /\
  demo_yf (length (fetches init)) "TCS.NS"
    = Fetched (demo_info (Some (Some 100%float))) [98%float; 105%float] /\
  most_recent [98%float; 105%float] = Some 105%float /\
  exists d w1 e,
    bulk_symbol demo_clock demo_yf "TCS.NS" init = (Ok d, w1) /\
    cache w1 !! "TCS.NS" = Some e /\ data e = d /\
    (demo_clock (reads w1) - timestamp e < timedelta_seconds CACHE_DURATION ->
     exists w2, get_yahoo_data demo_clock demo_yf "TCS.NS" w1
                  = (Ok (Response d 200), w2) /\
                fetches w2 = fetches w1).
Proof.
  split; [reflexivity|]. split; [reflexivity|]. split; [reflexivity|].
  destruct (cache_is_shared_between_paths demo_clock demo_yf "TCS.NS" init
              (demo_info (Some (Some 100%float))) [98%float; 105%float] 105%float
              eq_refl eq_refl eq_refl)
    as ((d & w1 & e & Hrun & Hin & Hdata & _ & _ & Hagain) & _).
  exists d, w1, e. split; [exact Hrun|]. split; [exact Hin|].
  split; [exact Hdata | exact Hagain].
Defined.

Lemma bulk_previous_close_rule_witness :
  valid_entry demo_clock init "INFY.NS" = None /\
  demo_yf (length (fetches init)) "INFY.NS"
    = Fetched (demo_info None) [98%float; 105%float] /\
  most_recent [98%float; 105%float] = Some 105%float /\
  exists d w',
    bulk_symbol demo_clock demo_yf "INFY.NS" init = (Ok d, w') /\
    meta_field "previousClose" d = Some (JNum 105%float).
Proof.
  split; [reflexivity|]. split; [reflexivity|]. split; [reflexivity|].
  destruct (bulk_previous_close_rule demo_clock demo_yf "INFY.NS" init
              (demo_info None) [98%float; 105%float] 105%float
              eq_refl eq_refl eq_refl)
    as (d & w' & Hrun & Hpc).
  exists d, w'. split; [exact Hrun | exact Hpc].
Defined.

Lemma missing_metadata_is_defaulted_witness :
  valid_entry demo_clock init "IPO.NS" = None /\
  demo_yf (length (fetches init)) "IPO.NS"
    = Fetched (demo_info None) [105%float] /\
  most_recent [105%float] = Some 105%float /\
  exists r w',
    get_yahoo_data demo_clock demo_yf "IPO.NS" init = (Ok r, w') /\
    meta_field "currency" (body r) = Some (JStr "INR") /\
    meta_field "shortName" (body r) = Some (JStr "Demo Ltd") /\
    meta_field "longName" (body r) = Some (JStr "IPO.NS").
Proof.
  split; [reflexivity|]. split; [reflexivity|]. split; [reflexivity|].
  destruct (missing_metadata_is_defaulted demo_clock demo_yf "IPO.NS" init
              (demo_info None) [105%float] 105%float
              eq_refl eq_refl eq_refl)
    as ((r & w' & Hrun & _ & Hcur & Hshort & Hlong & _) & _).
  exists r, w'. split; [exact Hrun|]. split; [exact Hcur|].
  split; [exact Hshort | exact Hlong].
Defined.

Lemma refresh_replaces_entry_witness :
  exists e,
    cache demo_cached !! "TCS.NS" = Some e /\
    timedelta_seconds CACHE_DURATION
      <= demo_late_clock (reads demo_cached) - timestamp e /\
    exists r w',
      get_yahoo_data demo_late_clock demo_yf "TCS.NS" demo_cached = (Ok r, w') /\
      size (cache w') = size (cache demo_cached).
Proof.
  eexists. split; [vm_compute; reflexivity|].
  split; [vm_compute; discriminate|].
  edestruct (refresh_replaces_entry demo_late_clock demo_yf "TCS.NS" demo_cached)
    as (r & w' & Hrun & _ & Hsize & _);
    [vm_compute; reflexivity | vm_compute; discriminate |].
  exists r, w'. split; [exact Hrun | exact Hsize].
Defined.

Lemma repeated_symbol_is_fetched_once_witness :
  valid_entry demo_clock init "TCS.NS" = None /\
  demo_yf (length (fetches init)) "TCS.NS"
    = Fetched (demo_info (Some (Some 100%float))) [98%float; 105%float] /\
  most_recent [98%float; 105%float] = Some 105%float /\
  demo_clock (S (reads (checked init "TCS.NS")))
    - demo_clock (reads (checked init "TCS.NS"))
    < timedelta_seconds CACHE_DURATION /\
  exists d w',
    bulk_loop demo_clock demo_yf ["TCS.NS"; "TCS.NS"] ∅ init
      = (Ok {["TCS.NS" := d]}, w') /\
    fetches w' = ["TCS.NS"].
Proof.
  split; [reflexivity|]. split; [reflexivity|]. split; [reflexivity|].
  split; [reflexivity|].
  destruct (repeated_symbol_is_fetched_once demo_clock demo_yf "TCS.NS" init
              (demo_info (Some (Some 100%float))) [98%float; 105%float] 105%float
              eq_refl eq_refl eq_refl eq_refl)
    as (d & w1 & w' & _ & Hloop & Hf & _).
  exists d, w'. split; [exact Hloop | exact Hf].
Defined.

Lemma nifty_is_the_nsei_quote_witness :
  valid_entry demo_clock init "^NSEI" = None /\
  exists r w1,
    get_nifty_data demo_clock demo_index_yf init = (Ok r, w1) /\
    status r = 200 /\
    meta_field "symbol" (body r) = Some (JStr "^NSEI").
Proof.
  split; [reflexivity|].
  destruct (nifty_is_the_nsei_quote demo_clock demo_index_yf init eq_refl)
    as [Hquote _].
  destruct (Hquote _ [19400%float; 19650%float] 19650%float eq_refl eq_refl)
    as (r & w1 & e & Hrun & Hs & Hsym & _).
  exists r, w1. split; [exact Hrun|]. split; [exact Hs | exact Hsym].
Defined.

Lemma bulk_keys_are_trimmed_witness :
  " TCS.NS, INFY.NS " <> "" /\
  exists results w',
    get_bulk_yahoo_data demo_clock demo_yf (Some " TCS.NS, INFY.NS ") init =
      (Ok (Response (JObj (map_to_list results)) 200), w') /\
    (size results <= 2)%nat.
Proof.
  split; [discriminate|].
  destruct (bulk_keys_are_trimmed demo_clock demo_yf " TCS.NS, INFY.NS " init)
    as (results & w' & Hrun & Hsize & _); [discriminate|].
  exists results, w'. split; [exact Hrun | exact Hsize].
Defined.

Lemma blank_comma_blank : blank " , ".
Proof.
  intros c Hc.
  repeat (apply elem_of_cons in Hc as [->|Hc]; [auto|]). inversion Hc.
Qed.

Lemma blank_parameter_asks_for_the_empty_symbol_witness :
  " , " <> "" /\ blank " , " /\
  exists results w',
    get_bulk_yahoo_data demo_clock demo_yf (Some " , ") init =
      (Ok (Response (JObj (map_to_list results)) 200), w') /\
    dom results = {[ "" ]}.
Proof.
  split; [discriminate|]. split; [exact blank_comma_blank|].
  destruct (blank_parameter_asks_for_the_empty_symbol demo_clock demo_yf " , " init)
    as (results & w' & called & Hrun & Hdom & _);
    [discriminate | exact blank_comma_blank |].
  exists results, w'. split; [exact Hrun | exact Hdom].
Defined.
